(** * Fitness-tracker calculators ([homework.py]): embedding and properties

    The module computes distance, mean speed and spent calories for three
    kinds of workout and renders a one-line summary.  All of its arithmetic
    is Python arithmetic on [int] and [float] objects, so the embedding has
    three layers:

    - [B64]: IEEE 754 binary64 arithmetic (round to nearest, ties to even),
      on the Standard Library's [spec_float];
    - [Py]: the Python operators the program applies ([*], [/], [+], [-],
      [**], [//], the [.3f] format), as CPython defines them, with the
      exceptions they raise;
    - the classes of [homework.py] themselves, method by method.

    Everything computes but one operation: [**] on floats, which CPython
    delegates to the [pow] of the platform's C library.  Its result is not
    determined to the last bit, so the library is a parameter ([Libm]) of
    every definition that squares, and what is proved of the squares rests
    on the accuracy a library documents ([AccurateSquares]): the result is
    the nearest float to the exact square or one of its two neighbours.
    With such a library the script prints its three lines (lemma
    [script_output]). *)

From Stdlib Require Import ZArith Bool List Lia.
From Stdlib Require Import Ascii String DecimalString.
From Stdlib Require Import Floats.SpecFloat.
From stdpp Require Import gmap strings.

Local Open Scope Z_scope.

(** ** Binary64 arithmetic *)

Module B64.

Definition prec : Z := 53.
Definition emax : Z := 1024.

Abbreviation float := spec_float.

Definition fadd : float -> float -> float := SFadd prec emax.
Definition fsub : float -> float -> float := SFsub prec emax.
Definition fmul : float -> float -> float := SFmul prec emax.
Definition fdiv : float -> float -> float := SFdiv prec emax.

Definition fopp : float -> float := SFopp.

Definition fltb : float -> float -> bool := SFltb.
Definition fleb : float -> float -> bool := SFleb.

Definition pzero : float := S754_zero false.

Definition is_nan (x : float) : bool :=
  match x with S754_nan => true | _ => false end.

Definition is_inf (x : float) : bool :=
  match x with S754_infinity _ => true | _ => false end.

Definition is_finite (x : float) : bool :=
  match x with S754_zero _ | S754_finite _ _ _ => true | _ => false end.

Definition is_zero (x : float) : bool :=
  match x with S754_zero _ => true | _ => false end.

Definition sign_bit (x : float) : bool :=
  match x with
  | S754_zero s | S754_infinity s | S754_finite s _ _ => s
  | S754_nan => false
  end.

(** C's [copysign (0.0, x)]. *)
Definition zero_with_sign_of (x : float) : float := S754_zero (sign_bit x).

(** The integer [z], rounded to the nearest binary64 number; an integer
    beyond the largest finite number rounds to an infinity. *)
Definition of_Z (z : Z) : float := binary_normalize prec emax z 0 false.

(** The quotient [a / b] of two integers, rounded once. *)
Definition Z_as_unbounded (z : Z) : float :=
  match z with
  | Z0 => S754_zero false
  | Zpos p => S754_finite false p 0
  | Zneg p => S754_finite true p 0
  end.

Definition div_Z (a b : Z) : float :=
  fdiv (Z_as_unbounded a) (Z_as_unbounded b).

(** The decimal literal [m * 10^(-k)] of the source text: the nearest
    binary64 number, as Python's parser produces it. *)
Definition decimal (m : Z) (k : nat) : float := div_Z m (10 ^ Z.of_nat k).

(** C's [fmod]: the remainder [x - n * y] with [n] the quotient truncated
    towards zero; it is exact, and has the sign of [x]. *)
Definition fmod (x y : float) : float :=
  match x, y with
  | S754_nan, _ | _, S754_nan => S754_nan
  | S754_infinity _, _ => S754_nan
  | _, S754_zero _ => S754_nan
  | S754_zero _, _ => x
  | S754_finite _ _ _, S754_infinity _ => x
  | S754_finite sx mx ex, S754_finite _ my ey =>
      let e := Z.min ex ey in
      let nx := Zpos mx * 2 ^ (ex - e) in
      let ny := Zpos my * 2 ^ (ey - e) in
      binary_normalize prec emax (cond_Zopp sx (Z.rem nx ny)) e sx
  end.

(** C's [floor]: the largest integral value not above [x]. *)
Definition floor (x : float) : float :=
  match x with
  | S754_finite s m e =>
      if 0 <=? e then x
      else binary_normalize prec emax (cond_Zopp s (Zpos m) / 2 ^ (- e)) 0 s
  | _ => x
  end.

(** [x * 1000], rounded to the nearest integer, ties to even: the digits
    that a conversion to three decimal places prints. *)
Definition round_half_even (n d : Z) : Z :=
  let q := n / d in
  let r := n mod d in
  match 2 * r ?= d with
  | Lt => q
  | Gt => q + 1
  | Eq => if Z.even q then q else q + 1
  end.

Definition thousandths (m : positive) (e : Z) : Z :=
  if 0 <=? e then Zpos m * 2 ^ e * 1000
  else round_half_even (Zpos m * 1000) (2 ^ (- e)).

End B64.

(** ** The Python operators used by the program *)

Module Py.
Import B64.

(** The exceptions the program can raise.  The two [TypeError]s are the ones
    a generated [__init__] raises when it is called with too few or too many
    positional arguments. *)
Inductive exn : Type :=
| ValueError (msg : string)
| TypeError_missing_positional (names : list string)
| TypeError_too_many_positional (takes given : nat)
| ZeroDivisionError
| OverflowError
| NotImplementedError.

(** A computation either raises or returns. *)
Definition result (A : Type) : Type := (exn + A)%type.

Definition raise {A : Type} (e : exn) : result A := inl e.

#[global] Instance result_ret : MRet result := fun A a => inr a.
#[global] Instance result_bind : MBind result :=
  fun A B k m => match m with inl e => inl e | inr a => k a end.
#[global] Instance result_fmap : FMap result :=
  fun A B f m => match m with inl e => inl e | inr a => inr (f a) end.

(** A number is an [int] (unbounded) or a [float] (binary64). *)
Inductive num : Type :=
| Int (z : Z)
| Float (f : float).

(** [isinstance (a, int)] and [isinstance (a, float)] *)
Definition is_int (a : num) : bool :=
  match a with Int _ => true | Float _ => false end.

Definition is_float (a : num) : bool :=
  match a with Int _ => false | Float _ => true end.

(** [float(z)]: an [int] too large for a float raises [OverflowError]. *)
Definition float_of_int (z : Z) : result float :=
  let f := of_Z z in
  if is_inf f then raise OverflowError else mret f.

Definition as_float (a : num) : result float :=
  match a with
  | Int z => float_of_int z
  | Float f => mret f
  end.

(** [a + b], [a - b], [a * b]: exact on two [int]s, otherwise both operands
    are converted to [float] and the float operation is applied; the float
    operations themselves never raise. *)
Definition arith (iop : Z -> Z -> Z) (fop : float -> float -> float)
    (a b : num) : result num :=
  match a, b with
  | Int x, Int y => mret (Int (iop x y))
  | _, _ => x ← as_float a; y ← as_float b; mret (Float (fop x y))
  end.

Definition add : num -> num -> result num := arith Z.add fadd.
Definition sub : num -> num -> result num := arith Z.sub fsub.
Definition mul : num -> num -> result num := arith Z.mul fmul.

(** [a / b]: always a [float].  Two [int]s give the correctly rounded
    quotient, or [OverflowError] when it is too large. *)
Definition truediv (a b : num) : result num :=
  match a, b with
  | Int x, Int y =>
      if y =? 0 then raise ZeroDivisionError
      else
        let q := div_Z x y in
        if is_inf q then raise OverflowError else mret (Float q)
  | _, _ =>
      x ← as_float a; y ← as_float b;
      if is_zero y then raise ZeroDivisionError else mret (Float (fdiv x y))
  end.

Definition one : float := of_Z 1.
Definition half : float := decimal 5 1.

(** C truth value of a [double]: anything but a zero. *)
Definition nonzero (x : float) : bool := negb (is_zero x).

(** The quotient part of CPython's [_float_div_mod], for [wx] not zero:
    [fmod], an adjustment when the remainder and the divisor differ in sign,
    then the quotient snapped to the nearest integral value. *)
Definition float_floor_div (vx wx : float) : float :=
  let md := fmod vx wx in
  let div := fdiv (fsub vx md) wx in
  let div :=
    if nonzero md && negb (Bool.eqb (fltb wx pzero) (fltb md pzero))
    then fsub div one else div in
  if nonzero div then
    let floordiv := floor div in
    if fltb half (fsub div floordiv) then fadd floordiv one else floordiv
  else zero_with_sign_of (fdiv vx wx).

(** [a // b]. *)
Definition floordiv (a b : num) : result num :=
  match a, b with
  | Int x, Int y =>
      if y =? 0 then raise ZeroDivisionError else mret (Int (x / y))
  | _, _ =>
      x ← as_float a; y ← as_float b;
      if is_zero y then raise ZeroDivisionError
      else mret (Float (float_floor_div x y))
  end.

(** *** The platform's [pow]

    CPython computes [x ** y] on floats by a call of C's [pow], once it has
    settled the special cases itself.  The result of the C library is not
    specified to the last bit: [glibc] documents an error below one unit in
    the last place and does not always return the nearest float
    ([15.427248620541512 ** 2] is 238.0 there, and the nearest float to the
    exact square is the one below).  The library is therefore a parameter of
    the embedding.  [c_pow x y] is the value of [pow (x, y)] for a finite
    [x > 0] other than 1 and a finite [y] other than 0, together with
    whether the call has set [errno]; for such arguments the only error of
    [pow] is a range error, [ERANGE]. *)
Class Libm : Type := { c_pow : float -> float -> float * bool }.

(** [x == 1.0], whatever the representation of [x]. *)
Definition is_one (x : float) : bool :=
  match x with
  | S754_finite false m e =>
      if 0 <=? e then Zpos m * 2 ^ e =? 1 else Zpos m =? 2 ^ (- e)
  | _ => false
  end.

(** [iv ** n] on a float, for an [int] exponent [n > 0] ([float_pow] of
    [floatobject.c]; the exponent is converted to a float first, and the
    program's exponent is 2).  CPython settles NaN, infinities, zeros and
    [1.0] itself, and a negative [iv] by negating the result when [n] is
    odd; the rest is [pow]'s.  After the call, an infinite result counts as
    a range error and a range error with a zero result is forgotten
    ([_Py_ADJUST_ERANGE1]); a range error that is left raises
    [OverflowError]. *)
Definition float_pow {libm : Libm} (iv : float) (n : positive)
    : result float :=
  let odd := Z.odd (Zpos n) in
  match iv with
  | S754_nan => mret iv
  | S754_infinity s => mret (S754_infinity (s && odd))
  | S754_zero s => mret (S754_zero (s && odd))
  | S754_finite s m e =>
      let negate_result := s && odd in
      let iv := S754_finite false m e in
      if is_one iv then mret (if negate_result then fopp one else one)
      else
        let '(ix, errno) := c_pow iv (of_Z (Zpos n)) in
        let errno := if errno then negb (is_zero ix) else is_inf ix in
        let ix := if negate_result then fopp ix else ix in
        if errno then raise OverflowError else mret ix
  end.

(** [a ** n] for an [int] exponent [n > 0]. *)
Definition pow {libm : Libm} (a : num) (n : positive) : result num :=
  match a with
  | Int x => mret (Int (x ^ Zpos n))
  | Float f => Float <$> float_pow f n
  end.

(** **** What is known of [pow]

    [m^n * 2^(e*n)], the exact power of the float [m * 2^e], rounded once
    to the nearest float. *)
Definition rounded_power (m : positive) (e : Z) (n : positive) : float :=
  binary_round prec emax false (m ^ n)%positive (e * Zpos n).

(** [2^k <= m^n * 2^(e*n)] *)
Definition power_at_least (m : positive) (e : Z) (n : positive) (k : Z)
    : bool :=
  let d := k - e * Zpos n in
  if 0 <=? d then 2 ^ d <=? Zpos (m ^ n) else true.

(** [x] is [y] or one of the two floats next to [y]. *)
Definition within_an_ulp (x y : float) : Prop :=
  x = SFpred prec emax y \/ x = y \/ x = SFsucc prec emax y.

(** A library whose squares are accurate to one unit in the last place.
    When the exact square of [m * 2^e] lies in [[2^-1022, 2^1023)], the
    normal numbers away from the overflow threshold, [pow] returns the
    nearest float or one of its two neighbours and reports no range error
    (unless it returns an infinity); when the exact square is [2^1024] or
    more, [pow] returns an infinity. *)
Class AccurateSquares (libm : Libm) : Prop := {
  square_within_an_ulp :
    forall (m : positive) (e : Z),
      power_at_least m e 2 (-1022) = true ->
      power_at_least m e 2 1023 = false ->
      exists y errno,
        c_pow (S754_finite false m e) (of_Z 2) = (y, errno)
        /\ within_an_ulp y (rounded_power m e 2)
        /\ (errno = true -> is_inf y = true);
  square_overflows :
    forall (m : positive) (e : Z),
      power_at_least m e 2 1024 = true ->
      exists errno,
        c_pow (S754_finite false m e) (of_Z 2)
        = (S754_infinity false, errno)
}.

(** The integer a float denotes, when it is a positive integer. *)
Definition positive_of_float (y : float) : option positive :=
  match y with
  | S754_finite false m e =>
      let z := if 0 <=? e then Zpos m * 2 ^ e
               else if Zpos m mod 2 ^ (- e) =? 0 then Zpos m / 2 ^ (- e)
               else 0 in
      match z with Zpos n => Some n | _ => None end
  | _ => None
  end.

(** One such library: its [pow] rounds the exact power once, for an
    exponent that is a positive integer.  It is the library at which the
    examples are evaluated. *)
#[global] Instance correctly_rounded_pow : Libm := {
  c_pow x y :=
    match x, positive_of_float y with
    | S754_finite _ m e, Some n =>
        if power_at_least m e n 1024 then (S754_infinity false, true)
        else let r := rounded_power m e n in (r, is_inf r)
    | _, _ => (S754_nan, false)
    end
}.

(** Comparisons with the [int] 0, as [a > 0] and [a >= 0] evaluate. *)
Definition gt0 (a : num) : bool :=
  match a with
  | Int z => 0 <? z
  | Float f => fltb pzero f
  end.

Definition ge0 (a : num) : bool :=
  match a with
  | Int z => 0 <=? z
  | Float f => fleb pzero f
  end.

(** [a < b], [a == b] and the like compare the exact values, also when one
    operand is an [int] and the other a [float]; a NaN compares with
    nothing. *)
Definition compare_int_float (z : Z) (f : float) : option comparison :=
  match f with
  | S754_nan => None
  | S754_infinity s => Some (if s then Gt else Lt)
  | S754_zero _ => Some (z ?= 0)
  | S754_finite s m e =>
      let v := cond_Zopp s (Zpos m) in
      Some (if 0 <=? e then z ?= v * 2 ^ e else z * 2 ^ (- e) ?= v)
  end.

Definition compare (a b : num) : option comparison :=
  match a, b with
  | Int x, Int y => Some (x ?= y)
  | Int x, Float y => compare_int_float x y
  | Float x, Int y => CompOpp <$> compare_int_float y x
  | Float x, Float y => SFcompare x y
  end.

Definition eqb (a b : num) : bool :=
  match compare a b with Some Eq => true | _ => false end.

Definition ltb (a b : num) : bool :=
  match compare a b with Some Lt => true | _ => false end.

(** [math.isfinite]: false on infinities and NaN (and on an [int] too large
    to convert, where the call raises). *)
Definition isfinite (a : num) : bool :=
  match a with
  | Int z => is_finite (of_Z z)
  | Float f => is_finite f
  end.

(** *** The [.3f] format *)

Definition digits (n : Z) : string :=
  NilZero.string_of_uint (N.to_uint (Z.to_N n)).

Definition pad3 (r : Z) : string :=
  digits (r / 100) +:+ digits (r / 10 mod 10) +:+ digits (r mod 10).

Definition minus_if (s : bool) : string := if s then "-" else "".

(** [format (x, '.3f')]: the exact value of [x] rounded to three decimals,
    ties to even; never an exponent. *)
Definition float_format_3f (x : float) : string :=
  match x with
  | S754_nan => "nan"
  | S754_infinity s => minus_if s +:+ "inf"
  | S754_zero s => minus_if s +:+ "0.000"
  | S754_finite s m e =>
      let t := thousandths m e in
      minus_if s +:+ digits (t / 1000) +:+ "." +:+ pad3 (t mod 1000)
  end.

(** An [int] is converted to a float first. *)
Definition format_3f (a : num) : result string :=
  float_format_3f <$> as_float a.

End Py.

(** ** The classes of [homework.py] *)

Import B64 Py.

(** *** [InfoMessage] *)

Module InfoMessage.

Record t : Type := Build {
  training_type : string;
  duration : num;
  distance : num;
  speed : num;
  calories : num
}.

(** [MESSAGE_TEXT] filled from the fields of [self]: the fields are
    converted in the order in which the template names them. *)
Definition get_message (self : t) : result string :=
  duration ← format_3f (duration self);
  distance ← format_3f (distance self);
  speed ← format_3f (speed self);
  calories ← format_3f (calories self);
  mret ("Тип тренировки: " +:+ training_type self +:+ "; "
        +:+ "Длительность: " +:+ duration +:+ " ч.; "
        +:+ "Дистанция: " +:+ distance +:+ " км; "
        +:+ "Ср. скорость: " +:+ speed +:+ " км/ч; "
        +:+ "Потрачено ккал: " +:+ calories +:+ ".").

End InfoMessage.

(** *** [Training] and its subclasses

    An object of class [Training] or of one of its three subclasses, with
    the fields of its dataclass in declaration order.  The fields hold
    whatever numbers the caller passed: the annotations are not enforced. *)
Inductive Training : Type :=
| Base (action duration weight : num)
| Running (action duration weight : num)
| SportsWalking (action duration weight height : num)
| Swimming (action duration weight length_pool count_pool : num).

Definition action (self : Training) : num :=
  match self with
  | Base a _ _ | Running a _ _ | SportsWalking a _ _ _ | Swimming a _ _ _ _ => a
  end.

Definition duration (self : Training) : num :=
  match self with
  | Base _ d _ | Running _ d _ | SportsWalking _ d _ _ | Swimming _ d _ _ _ => d
  end.

Definition weight (self : Training) : num :=
  match self with
  | Base _ _ w | Running _ _ w | SportsWalking _ _ w _ | Swimming _ _ w _ _ => w
  end.

(** [self.__class__.__name__] *)
Definition class_name (self : Training) : string :=
  match self with
  | Base _ _ _ => "Training"
  | Running _ _ _ => "Running"
  | SportsWalking _ _ _ _ => "SportsWalking"
  | Swimming _ _ _ _ _ => "Swimming"
  end.

(** Class attributes.  [Swimming] overrides [LEN_STEP]. *)
Definition LEN_STEP (self : Training) : num :=
  match self with
  | Swimming _ _ _ _ _ => Float (decimal 138 2)
  | _ => Float (decimal 65 2)
  end.

Definition M_IN_KM : num := Int 1000.
Definition MIN_IN_HOUR : num := Int 60.

Definition Running_SPEND_CALORIES_FACTOR : num := Int 18.
Definition Running_SPEND_CALORIES_FACTOR_1 : num := Int 20.

Definition SportsWalking_SPEND_CALORIES_FACTOR : num := Float (decimal 35 3).
Definition SportsWalking_SPEND_CALORIES_FACTOR_1 : positive := 2.
Definition SportsWalking_SPEND_CALORIES_FACTOR_2 : num := Float (decimal 29 3).

Definition Swimming_SPEND_CALORIES_FACTOR : num := Float (decimal 11 1).
Definition Swimming_SPEND_CALORIES_FACTOR_1 : num := Int 2.

(** [self.action * self.LEN_STEP / self.M_IN_KM] *)
Definition get_distance (self : Training) : result num :=
  steps ← mul (action self) (LEN_STEP self);
  truediv steps M_IN_KM.

(** [Swimming] overrides the method of the base class. *)
Definition get_mean_speed (self : Training) : result num :=
  match self with
  | Swimming _ duration _ length_pool count_pool =>
      metres ← mul length_pool count_pool;
      km ← truediv metres M_IN_KM;
      truediv km duration
  | _ =>
      distance ← get_distance self;
      truediv distance (duration self)
  end.

Definition get_spent_calories {libm : Libm} (self : Training) : result num :=
  match self with
  | Base _ _ _ => raise NotImplementedError
  | Running _ duration weight =>
      speed ← get_mean_speed self;
      a ← mul Running_SPEND_CALORIES_FACTOR speed;
      b ← sub a Running_SPEND_CALORIES_FACTOR_1;
      c ← mul b weight;
      d ← truediv c M_IN_KM;
      minutes ← mul duration MIN_IN_HOUR;
      mul d minutes
  | SportsWalking _ duration weight height =>
      a ← mul SportsWalking_SPEND_CALORIES_FACTOR weight;
      speed ← get_mean_speed self;
      squared ← pow speed SportsWalking_SPEND_CALORIES_FACTOR_1;
      b ← floordiv squared height;
      c ← mul b SportsWalking_SPEND_CALORIES_FACTOR_2;
      d ← mul c weight;
      e ← add a d;
      f ← mul e duration;
      mul f MIN_IN_HOUR
  | Swimming _ _ weight _ _ =>
      speed ← get_mean_speed self;
      a ← add speed Swimming_SPEND_CALORIES_FACTOR;
      b ← mul a Swimming_SPEND_CALORIES_FACTOR_1;
      mul b weight
  end.

Definition show_training_info {libm : Libm} (self : Training)
    : result InfoMessage.t :=
  distance ← get_distance self;
  speed ← get_mean_speed self;
  calories ← get_spent_calories self;
  mret (InfoMessage.Build (class_name self) (duration self)
          distance speed calories).

(** *** [read_package] *)

(** The values of the dictionary [types_training]: classes. *)
Inductive class : Type := Swimming_class | Running_class | SportsWalking_class.

(** The parameters of the generated [__init__], after [self]. *)
Definition init_params (c : class) : list string :=
  match c with
  | Running_class => ["action"; "duration"; "weight"]
  | SportsWalking_class => ["action"; "duration"; "weight"; "height"]
  | Swimming_class =>
      ["action"; "duration"; "weight"; "length_pool"; "count_pool"]
  end%string.

(** Calling the class [c] on the unpacked list [data]: the arguments are
    bound to the fields in order; with too few or too many of them the call
    raises [TypeError]. *)
Definition new (c : class) (data : list num) : result Training :=
  match c, data with
  | Running_class, [a; d; w] => mret (Running a d w)
  | SportsWalking_class, [a; d; w; h] => mret (SportsWalking a d w h)
  | Swimming_class, [a; d; w; l; n] => mret (Swimming a d w l n)
  | _, _ =>
      let params := init_params c in
      if (length data <? length params)%nat
      then raise (TypeError_missing_positional (drop (length data) params))
      else raise (TypeError_too_many_positional
                    (S (length params)) (S (length data)))
  end.

Definition types_training : gmap string class :=
  {[ "SWM" := Swimming_class;
     "RUN" := Running_class;
     "WLK" := SportsWalking_class ]}%string.

Definition read_package (workout_type : string) (data : list num)
    : result Training :=
  match types_training !! workout_type with
  | None => raise (ValueError "Не известный тип тренировки.")
  | Some c => new c data
  end.

(** *** [main] and the script

    [print] appends one line to the standard output. *)
Definition main {libm : Libm} (training : Training) (stdout : list string)
    : result (list string) :=
  info ← show_training_info training;
  line ← InfoMessage.get_message info;
  mret (stdout ++ [line]).

Definition packages : list (string * list num) :=
  [ ("SWM", [Int 720; Int 1; Int 80; Int 25; Int 40]);
    ("RUN", [Int 15000; Int 1; Int 75]);
    ("WLK", [Int 9000; Int 1; Int 75; Int 180]) ]%string.

Fixpoint script {libm : Libm} (ps : list (string * list num))
    (stdout : list string)
    : result (list string) :=
  match ps with
  | [] => mret stdout
  | (workout_type, data) :: rest =>
      training ← read_package workout_type data;
      stdout ← main training stdout;
      script rest stdout
  end.

(** * Facts about binary64 rounding *)

(** ** Signs of rounded results

    Rounding never changes the sign it is given, and never produces a NaN
    from a non-negative mantissa.  The lemmas hold for every format. *)

Section RoundingSigns.
Variables prec emax : Z.

(** [x] is a zero, a finite number or an infinity with sign bit [s]. *)
Definition has_sign (s : bool) (x : float) : Prop :=
  match x with
  | S754_nan => False
  | S754_zero s' | S754_finite s' _ _ | S754_infinity s' => s' = s
  end.

Lemma iter_pos_invariant {A : Type} (P : A -> Prop) (f : A -> A) :
  (forall x, P x -> P (f x)) ->
  forall (p : positive) (x : A), P x -> P (SpecFloat.iter_pos f p x).
Proof.
  intros Hf. induction p as [p IH|p IH|]; intros x Hx; simpl.
  - apply IH, IH, Hf, Hx.
  - apply IH, IH, Hx.
  - apply Hf, Hx.
Qed.

Lemma shr_1_nonneg (mrs : shr_record) :
  0 <= shr_m mrs -> 0 <= shr_m (shr_1 mrs).
Proof.
  destruct mrs as [m r s]. destruct m as [|[p|p|]|[p|p|]]; simpl; lia.
Qed.

Lemma shr_nonneg (mrs : shr_record) (e n : Z) :
  0 <= shr_m mrs -> 0 <= shr_m (fst (shr mrs e n)).
Proof.
  intros H. destruct n as [|p|p]; simpl; try exact H.
  apply (iter_pos_invariant (fun r => 0 <= shr_m r)); [ | exact H ].
  apply shr_1_nonneg.
Qed.

Lemma shr_record_of_loc_m (m : Z) (l : location) :
  shr_m (shr_record_of_loc m l) = m.
Proof. destruct l as [|[| |]]; reflexivity. Qed.

Lemma shr_fexp_nonneg (m e : Z) (l : location) :
  0 <= m -> 0 <= shr_m (fst (shr_fexp prec emax m e l)).
Proof.
  intros H. unfold shr_fexp. apply shr_nonneg.
  rewrite shr_record_of_loc_m. exact H.
Qed.

Lemma round_nearest_even_nonneg (m : Z) (l : location) :
  0 <= m -> 0 <= round_nearest_even m l.
Proof.
  intros H. destruct l as [|[| |]]; simpl; try lia.
  destruct (Z.even m); lia.
Qed.

Lemma binary_round_aux_sign (s : bool) (m e : Z) (l : location) :
  0 <= m -> has_sign s (binary_round_aux prec emax s m e l).
Proof.
  intros Hm. unfold binary_round_aux.
  pose proof (shr_fexp_nonneg m e l Hm) as H1.
  destruct (shr_fexp prec emax m e l) as [mrs' e']. simpl in H1.
  pose proof (shr_fexp_nonneg
                (round_nearest_even (shr_m mrs') (loc_of_shr_record mrs'))
                e' loc_Exact (round_nearest_even_nonneg _ _ H1)) as H2.
  destruct (shr_fexp prec emax _ e' loc_Exact) as [mrs'' e'']. simpl in H2.
  destruct (shr_m mrs'') as [|p|p]; simpl.
  - reflexivity.
  - destruct (e'' <=? emax - prec); reflexivity.
  - lia.
Qed.

Lemma binary_round_sign (s : bool) (m : positive) (e : Z) :
  has_sign s (binary_round prec emax s m e).
Proof.
  unfold binary_round. destruct (shl_align m e _) as [mz ez].
  apply binary_round_aux_sign. lia.
Qed.

Lemma binary_normalize_sign (z : Z) (e : Z) :
  0 <= z -> has_sign false (binary_normalize prec emax z e false).
Proof.
  intros Hz. destruct z as [|p|p]; simpl.
  - reflexivity.
  - apply binary_round_sign.
  - lia.
Qed.

Lemma SFmul_sign (x y : float) :
  is_finite x = true -> is_finite y = true ->
  has_sign (xorb (sign_bit x) (sign_bit y)) (SFmul prec emax x y).
Proof.
  destruct x as [sx|sx| |sx mx ex], y as [sy|sy| |sy my ey];
    simpl; intros Hx Hy; try discriminate; try reflexivity.
  apply binary_round_aux_sign. lia.
Qed.

Lemma SFdiv_core_binary_nonneg (m1 m2 : positive) (e1 e2 : Z) :
  0 <= fst (fst (SFdiv_core_binary prec emax (Zpos m1) e1 (Zpos m2) e2)).
Proof.
  unfold SFdiv_core_binary.
  set (s := e1 - e2 - _).
  set (m' := match s with Z0 => Zpos m1 | Zpos _ => Z.shiftl (Zpos m1) s
                     | Zneg _ => 0 end).
  assert (Hm' : 0 <= m').
  { unfold m'. destruct s; try lia. apply Z.shiftl_nonneg. lia. }
  pose proof (Z.div_pos m' (Zpos m2) Hm' ltac:(lia)) as Hq.
  unfold Z.div in Hq. destruct (Z.div_eucl m' (Zpos m2)) as [q r].
  exact Hq.
Qed.

Lemma SFdiv_sign (x : float) (sy : bool) (my : positive) (ey : Z) :
  is_nan x = false ->
  has_sign (xorb (sign_bit x) sy)
    (SFdiv prec emax x (S754_finite sy my ey)).
Proof.
  destruct x as [sx|sx| |sx mx ex]; simpl; intros Hx;
    try discriminate; try reflexivity.
  pose proof (SFdiv_core_binary_nonneg mx my ex ey) as H.
  destruct (SFdiv_core_binary prec emax (Zpos mx) ex (Zpos my) ey)
    as [[mz ez] lz].
  apply binary_round_aux_sign. exact H.
Qed.

End RoundingSigns.

(** ** Rounding a positive mantissa

    Above the smallest exponent of the format, rounding shifts out fewer
    bits than the mantissa has, so a positive mantissa never rounds to
    zero. *)

Section RoundingMagnitude.
Variables prec emax : Z.
Hypothesis prec_positive : 0 < prec.

Lemma digits2_pos_lower (p : positive) :
  2 ^ (Zpos (digits2_pos p) - 1) <= Zpos p.
Proof.
  induction p as [p IH|p IH|]; simpl digits2_pos.
  - rewrite Pos2Z.inj_succ.
    replace (Z.succ (Zpos (digits2_pos p)) - 1)
      with (Z.succ (Zpos (digits2_pos p) - 1)) by lia.
    rewrite Z.pow_succ_r by lia. lia.
  - rewrite Pos2Z.inj_succ.
    replace (Z.succ (Zpos (digits2_pos p)) - 1)
      with (Z.succ (Zpos (digits2_pos p) - 1)) by lia.
    rewrite Z.pow_succ_r by lia. lia.
  - reflexivity.
Qed.

Lemma shr_1_div2 (mrs : shr_record) :
  0 <= shr_m mrs -> shr_m (shr_1 mrs) = shr_m mrs / 2.
Proof.
  destruct mrs as [m r s]. simpl. intros Hm.
  rewrite <- Z.div2_div.
  destruct m as [|[p|p|]|p]; try reflexivity. lia.
Qed.

Lemma iter_shr_1_div (n : positive) (mrs : shr_record) :
  0 <= shr_m mrs ->
  shr_m (SpecFloat.iter_pos shr_1 n mrs) = shr_m mrs / 2 ^ Zpos n.
Proof.
  revert mrs. induction n as [n IH|n IH|]; intros mrs Hm;
    cbn [SpecFloat.iter_pos].
  - assert (H1 : 0 <= shr_m (shr_1 mrs)) by (apply shr_1_nonneg, Hm).
    assert (H2 : 0 <= shr_m (SpecFloat.iter_pos shr_1 n (shr_1 mrs))).
    { apply (iter_pos_invariant (fun r => 0 <= shr_m r));
        [ apply shr_1_nonneg | exact H1 ]. }
    rewrite (IH _ H2), (IH _ H1), (shr_1_div2 _ Hm).
    rewrite !Z.div_div by lia.
    f_equal.
    replace (Zpos n~1) with (Z.succ (Zpos n + Zpos n)) by lia.
    rewrite Z.pow_succ_r, Z.pow_add_r by lia. reflexivity.
  - assert (H2 : 0 <= shr_m (SpecFloat.iter_pos shr_1 n mrs)).
    { apply (iter_pos_invariant (fun r => 0 <= shr_m r));
        [ apply shr_1_nonneg | exact Hm ]. }
    rewrite (IH _ H2), (IH _ Hm).
    rewrite !Z.div_div by lia.
    f_equal.
    replace (Zpos n~0) with (Zpos n + Zpos n) by lia.
    rewrite Z.pow_add_r by lia. reflexivity.
  - rewrite (shr_1_div2 _ Hm). reflexivity.
Qed.

Lemma shr_fexp_positive (m e : Z) (l : location) :
  0 < m -> emin prec emax <= e ->
  0 < shr_m (fst (shr_fexp prec emax m e l))
  /\ emin prec emax <= snd (shr_fexp prec emax m e l).
Proof.
  intros Hm He. unfold shr_fexp, shr.
  destruct m as [|p|p]; try lia. simpl Zdigits2.
  set (d := Zpos (digits2_pos p)).
  pose proof (digits2_pos_lower p) as Hd. fold d in Hd.
  assert (Hd1 : 1 <= d) by (unfold d; lia).
  destruct (fexp prec emax (d + e) - e) as [|n|n] eqn:En; simpl.
  - rewrite shr_record_of_loc_m. lia.
  - rewrite iter_shr_1_div, shr_record_of_loc_m
      by (rewrite shr_record_of_loc_m; lia).
    unfold fexp in En. split; [ | lia ].
    assert (Hn : Zpos n <= d - 1) by lia.
    apply Z.div_str_pos. split; [ lia | ].
    apply Z.le_trans with (2 ^ (d - 1)); [ | exact Hd ].
    apply Z.pow_le_mono_r; lia.
  - rewrite shr_record_of_loc_m. lia.
Qed.

Lemma round_nearest_even_positive (m : Z) (l : location) :
  0 < m -> 0 < round_nearest_even m l.
Proof.
  intros H. destruct l as [|[| |]]; simpl; try lia.
  destruct (Z.even m); lia.
Qed.

Lemma binary_round_aux_nonzero (s : bool) (m e : Z) (l : location) :
  0 < m -> emin prec emax <= e ->
  is_zero (binary_round_aux prec emax s m e l) = false.
Proof.
  intros Hm He. unfold binary_round_aux.
  destruct (shr_fexp_positive m e l Hm He) as [H1 E1].
  destruct (shr_fexp prec emax m e l) as [mrs' e']. simpl in H1, E1.
  destruct (shr_fexp_positive
              (round_nearest_even (shr_m mrs') (loc_of_shr_record mrs'))
              e' loc_Exact (round_nearest_even_positive _ _ H1) E1)
    as [H2 _].
  destruct (shr_fexp prec emax _ e' loc_Exact) as [mrs'' e'']. simpl in H2.
  destruct (shr_m mrs'') as [|q|q]; try lia.
  destruct (e'' <=? emax - prec); reflexivity.
Qed.

Lemma binary_round_nonzero (s : bool) (m : positive) (e : Z) :
  emin prec emax <= e -> is_zero (binary_round prec emax s m e) = false.
Proof.
  intros He. unfold binary_round, shl_align.
  set (e' := fexp prec emax (Zpos (digits2_pos m) + e)).
  assert (He' : emin prec emax <= e') by (unfold e', fexp; lia).
  destruct (e' - e) as [|d|d] eqn:Ed;
    apply binary_round_aux_nonzero; lia.
Qed.

End RoundingMagnitude.

(** ** Non-negative and positive floats *)


Definition positive_finite (x : float) : Prop :=
  exists m e, x = S754_finite false m e.



Lemma positive_finite_intro (x : float) :
  fltb pzero x = true -> is_finite x = true -> positive_finite x.
Proof.
  destruct x as [s|s| |s m e]; try destruct s; simpl; intros H1 H2;
    try discriminate; eexists _, _; reflexivity.
Qed.





(** A positive [int] never converts to a zero. *)
Lemma of_Z_nonzero (z : Z) : 0 < z -> is_zero (of_Z z) = false.
Proof.
  intros Hz. destruct z as [|p|p]; try lia.
  apply (binary_round_nonzero prec emax); [ reflexivity | ].
  unfold SpecFloat.emin, prec, emax. lia.
Qed.

Lemma of_Z_positive_finite (z : Z) :
  0 < z -> is_finite (of_Z z) = true -> positive_finite (of_Z z).
Proof.
  intros Hz Hf.
  pose proof (of_Z_nonzero z Hz) as Hnz.
  pose proof (binary_normalize_sign prec emax z 0 ltac:(lia)) as Hs.
  fold (of_Z z) in Hs.
  destruct (of_Z z) as [s|s| |s m e]; simpl in *; try discriminate;
    try contradiction.
  subst s. eexists _, _. reflexivity.
Qed.

(** * Facts about the operators *)

(** A closed goal is settled by running the program. *)
Ltac by_evaluation := vm_compute; reflexivity.

Lemma bind_inr {A B : Type} (a : A) (k : A -> result B) :
  (inr a ≫= k) = k a.
Proof. reflexivity. Qed.

(** ** Which exceptions the arithmetic raises *)

(** [a == 0] *)
Definition eq0 (a : num) : bool :=
  match a with
  | Int z => z =? 0
  | Float f => is_zero f
  end.

Definition arith_error (e : exn) : Prop :=
  e = ZeroDivisionError \/ e = OverflowError.

(** [r] raises, and what it raises satisfies [P]. *)
Definition raises {A : Type} (P : exn -> Prop) (r : result A) : Prop :=
  exists e, r = inl e /\ P e.

(** Whatever [r] raises satisfies [P]. *)
Definition raises_only {A : Type} (P : exn -> Prop) (r : result A) : Prop :=
  forall e, r = inl e -> P e.

Lemma raises_bind_now {A B : Type} (P : exn -> Prop)
    (m : result A) (k : A -> result B) :
  raises P m -> raises P (m ≫= k).
Proof. intros (e & -> & He). exists e. split; [ reflexivity | exact He ]. Qed.

Lemma raises_bind_later {A B : Type} (P : exn -> Prop)
    (m : result A) (k : A -> result B) :
  raises_only P m -> (forall a, m = inr a -> raises P (k a)) ->
  raises P (m ≫= k).
Proof.
  intros Hm Hk. destruct m as [e|a].
  - exists e. split; [ reflexivity | apply Hm; reflexivity ].
  - apply Hk. reflexivity.
Qed.

Lemma raises_only_bind {A B : Type} (P : exn -> Prop)
    (m : result A) (k : A -> result B) :
  raises_only P m -> (forall a, m = inr a -> raises_only P (k a)) ->
  raises_only P (m ≫= k).
Proof.
  intros Hm Hk. destruct m as [e|a].
  - intros e' H. injection H as <-. apply Hm. reflexivity.
  - apply Hk. reflexivity.
Qed.

Lemma float_of_int_raises_only (z : Z) :
  raises_only arith_error (float_of_int z).
Proof.
  unfold float_of_int. intros e. destruct (is_inf (of_Z z)); intros H.
  - injection H as <-. right. reflexivity.
  - discriminate H.
Qed.

Lemma as_float_raises_only (a : num) : raises_only arith_error (as_float a).
Proof.
  destruct a as [z|f].
  - apply float_of_int_raises_only.
  - intros e H. discriminate H.
Qed.

Lemma arith_raises_only iop fop (a b : num) :
  raises_only arith_error (arith iop fop a b).
Proof.
  assert (G : raises_only arith_error
                (x ← as_float a; y ← as_float b; mret (Float (fop x y)))).
  { apply raises_only_bind; [ apply as_float_raises_only | intros x _ ].
    apply raises_only_bind; [ apply as_float_raises_only | intros y _ ].
    intros e H. discriminate H. }
  destruct a, b; try exact G. intros e H. discriminate H.
Qed.

Lemma truediv_raises_only (a b : num) : raises_only arith_error (truediv a b).
Proof.
  assert (G : raises_only arith_error
                (x ← as_float a; y ← as_float b;
                 if is_zero y then raise ZeroDivisionError
                 else mret (Float (fdiv x y)))).
  { apply raises_only_bind; [ apply as_float_raises_only | intros x _ ].
    apply raises_only_bind; [ apply as_float_raises_only | intros y _ ].
    intros e. destruct (is_zero y); intros H;
      [ injection H as <-; left; reflexivity | discriminate H ]. }
  destruct a as [x|x], b as [y|y]; try exact G.
  unfold truediv. intros e.
  destruct (y =? 0); [ intros H; injection H as <-; left; reflexivity | ].
  destruct (is_inf _); intros H;
    [ injection H as <-; right; reflexivity | discriminate H ].
Qed.

Lemma float_pow_raises_overflow {libm : Libm} (x : float) (n : positive)
    (e : exn) :
  float_pow x n = inl e -> e = OverflowError.
Proof.
  unfold float_pow. destruct x as [s|s| |s m ex]; try discriminate.
  destruct (is_one (S754_finite false m ex)); [ discriminate | ].
  destruct (c_pow (S754_finite false m ex) (of_Z (Zpos n))) as [ix errno].
  destruct (if errno then negb (is_zero ix) else is_inf ix);
    [ | discriminate ].
  intros H. injection H as <-. reflexivity.
Qed.

Lemma pow_raises_only {libm : Libm} (a : num) (n : positive) :
  raises_only arith_error (pow a n).
Proof.
  destruct a as [x|x]; intros e; simpl; [ discriminate | ].
  destruct (float_pow x n) as [e'|f] eqn:Hpow; simpl; [ | discriminate ].
  intros H. injection H as <-.
  right. exact (float_pow_raises_overflow x n e' Hpow).
Qed.

(** A division always returns a float. *)
Lemma truediv_returns_float (a b v : num) :
  truediv a b = inr v -> exists f, v = Float f.
Proof.
  destruct a as [x|x], b as [y|y]; unfold truediv; simpl.
  - destruct (y =? 0); [ discriminate | ].
    destruct (is_inf _); [ discriminate | ].
    intros H. injection H as <-. eexists; reflexivity.
  - destruct (float_of_int x) as [e|fx]; simpl; [ discriminate | ].
    destruct (is_zero y); [ discriminate | ].
    intros H. injection H as <-. eexists; reflexivity.
  - destruct (float_of_int y) as [e|fy]; simpl; [ discriminate | ].
    destruct (is_zero fy); [ discriminate | ].
    intros H. injection H as <-. eexists; reflexivity.
  - destruct (is_zero y); [ discriminate | ].
    intros H. injection H as <-. eexists; reflexivity.
Qed.

(** Dividing by zero raises: [ZeroDivisionError], unless converting the
    dividend has raised [OverflowError] before. *)
Lemma truediv_by_zero (a b : num) :
  eq0 b = true -> raises arith_error (truediv a b).
Proof.
  intros Hb.
  assert (Hf : exists s, as_float b = inr (S754_zero s)).
  { destruct b as [z|f]; simpl in Hb.
    - apply Z.eqb_eq in Hb. subst z. exists false. reflexivity.
    - destruct f; try discriminate Hb. eexists; reflexivity. }
  destruct Hf as [s Hs].
  assert (G : raises arith_error
                (x ← as_float a; y ← as_float b;
                 if is_zero y then raise ZeroDivisionError
                 else mret (Float (fdiv x y)))).
  { apply raises_bind_later; [ apply as_float_raises_only | intros x _ ].
    rewrite Hs. exists ZeroDivisionError. split; [ reflexivity | left; reflexivity ]. }
  destruct a as [x|x], b as [y|y]; try exact G.
  simpl in Hb. unfold truediv. rewrite Hb.
  exists ZeroDivisionError. split; [ reflexivity | left; reflexivity ].
Qed.

Lemma floordiv_float_by_zero (x : float) (b : num) :
  eq0 b = true -> floordiv (Float x) b = inl ZeroDivisionError.
Proof.
  intros Hb. destruct b as [z|f]; simpl in Hb.
  - apply Z.eqb_eq in Hb. subst z. reflexivity.
  - destruct f; try discriminate Hb. reflexivity.
Qed.

Lemma pow_returns_float {libm : Libm} (x : float) (n : positive) (v : num) :
  pow (Float x) n = inr v -> exists f, v = Float f.
Proof.
  simpl. destruct (float_pow x n) as [e|f]; simpl; [ discriminate | ].
  intros H. injection H as <-. eexists; reflexivity.
Qed.

(** ** Squares

    What [**] returns when the library's squares are accurate. *)

Lemma power_at_least_succ (m : positive) (e : Z) (n : positive) (k : Z) :
  power_at_least m e n k = false -> power_at_least m e n (k + 1) = false.
Proof.
  unfold power_at_least.
  replace (k + 1 - e * Zpos n) with (k - e * Zpos n + 1) by lia.
  set (d := k - e * Zpos n).
  destruct (0 <=? d) eqn:Hd; [ | discriminate ].
  apply Z.leb_le in Hd. intros H. apply Z.leb_gt in H.
  replace (0 <=? d + 1) with true by (symmetry; apply Z.leb_le; lia).
  apply Z.leb_gt. rewrite Z.pow_add_r by lia. lia.
Qed.

#[global] Instance correctly_rounded_pow_accurate :
  AccurateSquares correctly_rounded_pow.
Proof.
  assert (H2 : positive_of_float (of_Z 2) = Some 2%positive) by by_evaluation.
  split.
  - intros m e _ Hhi. apply power_at_least_succ in Hhi.
    change (1023 + 1) with 1024 in Hhi.
    unfold c_pow, correctly_rounded_pow. rewrite H2, Hhi.
    exists (rounded_power m e 2), (is_inf (rounded_power m e 2)).
    split; [ reflexivity | ].
    split; [ right; left; reflexivity | intros H; exact H ].
  - intros m e H. unfold c_pow, correctly_rounded_pow. rewrite H2, H.
    exists true. reflexivity.
Qed.

Section AccurateSquares.
Context {libm : Libm} {accurate : AccurateSquares libm}.

(** A square in the normal range is the nearest float or one of its
    neighbours. *)
Lemma float_pow_square (s : bool) (m : positive) (e : Z) :
  is_one (S754_finite false m e) = false ->
  power_at_least m e 2 (-1022) = true ->
  power_at_least m e 2 1023 = false ->
  exists y, within_an_ulp y (rounded_power m e 2)
            /\ float_pow (S754_finite s m e) 2
               = if is_inf y then raise OverflowError else mret y.
Proof.
  intros H1 Hlo Hhi.
  destruct (square_within_an_ulp m e Hlo Hhi) as (y & errno & Hc & Hy & He).
  exists y. split; [ exact Hy | ].
  unfold float_pow. cbv zeta. rewrite H1, Hc.
  change (Z.odd 2) with false. rewrite andb_false_r.
  destruct errno.
  - rewrite (He eq_refl). destruct y; try discriminate (He eq_refl).
    reflexivity.
  - reflexivity.
Qed.

(** A square of [2^1024] or more raises. *)
Lemma float_pow_square_overflows (s : bool) (m : positive) (e : Z) :
  is_one (S754_finite false m e) = false ->
  power_at_least m e 2 1024 = true ->
  float_pow (S754_finite s m e) 2 = inl OverflowError.
Proof.
  intros H1 H. destruct (square_overflows m e H) as (errno & Hc).
  unfold float_pow. cbv zeta. rewrite H1, Hc.
  destruct errno; reflexivity.
Qed.

End AccurateSquares.

(** ** When the operators return *)

Definition returns_float (r : result num) : Prop :=
  exists f, r = inr (Float f).

(** [float (a)] returns. *)
Definition convertible (a : num) : Prop := exists x, as_float a = inr x.

(** [float (a)] returns and is not a zero. *)
Definition convertible_nonzero (a : num) : Prop :=
  exists x, as_float a = inr x /\ is_zero x = false.

Lemma float_of_int_finite (z : Z) :
  is_finite (of_Z z) = true -> float_of_int z = inr (of_Z z).
Proof.
  unfold float_of_int. destruct (of_Z z); simpl; intros H;
    try discriminate H; reflexivity.
Qed.

Lemma convertible_finite (a : num) : isfinite a = true -> convertible a.
Proof.
  destruct a as [z|f]; simpl; intros H.
  - exists (of_Z z). apply float_of_int_finite, H.
  - exists f. reflexivity.
Qed.


Lemma arith_returns_float_l iop fop (x : float) (b : num) :
  convertible b -> returns_float (arith iop fop (Float x) b).
Proof.
  intros [y Hy]. exists (fop x y).
  unfold arith. destruct b as [z|f]; simpl in Hy |- *.
  - rewrite Hy. reflexivity.
  - injection Hy as ->. reflexivity.
Qed.

Lemma arith_returns_float_r iop fop (a : num) (y : float) :
  convertible a -> returns_float (arith iop fop a (Float y)).
Proof.
  intros [x Hx]. exists (fop x y).
  unfold arith. destruct a as [z|f]; simpl in Hx |- *.
  - rewrite Hx. reflexivity.
  - injection Hx as ->. reflexivity.
Qed.

Lemma truediv_returns_float_l (x : float) (b : num) :
  convertible_nonzero b -> returns_float (truediv (Float x) b).
Proof.
  intros (y & Hy & Hnz). exists (fdiv x y).
  unfold truediv. destruct b as [z|f]; simpl in Hy |- *.
  - rewrite Hy. simpl. rewrite Hnz. reflexivity.
  - injection Hy as ->. rewrite Hnz. reflexivity.
Qed.

Lemma convertible_float (f : float) : convertible (Float f).
Proof. exists f. reflexivity. Qed.

Lemma convertible_const (z : Z) :
  is_inf (of_Z z) = false -> convertible (Int z).
Proof.
  intros H. exists (of_Z z). unfold as_float, float_of_int. rewrite H.
  reflexivity.
Qed.

Lemma convertible_nonzero_const (z : Z) :
  is_inf (of_Z z) = false -> is_zero (of_Z z) = false ->
  convertible_nonzero (Int z).
Proof.
  intros H Hz. exists (of_Z z). unfold as_float, float_of_int. rewrite H.
  split; [ reflexivity | exact Hz ].
Qed.

(** ** Signs of the results *)


Lemma as_float_positive (a : num) :
  isfinite a = true -> gt0 a = true ->
  exists y, as_float a = inr y /\ positive_finite y.
Proof.
  destruct a as [z|f]; simpl; intros Hf Hs.
  - exists (of_Z z). split; [ apply float_of_int_finite, Hf | ].
    apply of_Z_positive_finite; [ apply Z.ltb_lt, Hs | exact Hf ].
  - exists f. split; [ reflexivity | ].
    apply positive_finite_intro; assumption.
Qed.






(** * Properties of the program *)

(** ** The line of a workout *)

(** The line that [main] prints for [training]: the summary, formatted. *)
Definition summary_line {libm : Libm} (training : Training) : result string :=
  info ← show_training_info training;
  InfoMessage.get_message info.

(** [main] appends the line to whatever has been printed before; the line
    does not depend on it. *)
Lemma main_prints_summary_line {libm : Libm} (training : Training)
    (stdout : list string) :
  main training stdout
  = (line ← summary_line training; mret (stdout ++ [line])).
Proof.
  unfold main, summary_line.
  destruct (show_training_info training) as [e|info]; [ reflexivity | ].
  simpl. destruct (InfoMessage.get_message info); reflexivity.
Qed.

(** One turn of the loop of the script. *)
Lemma script_step {libm : Libm} (workout_type : string) (data : list num)
    (rest : list (string * list num)) (stdout : list string) :
  script ((workout_type, data) :: rest) stdout
  = (training ← read_package workout_type data;
     line ← summary_line training;
     script rest (stdout ++ [line])).
Proof.
  simpl. destruct (read_package workout_type data) as [e|t]; [ reflexivity | ].
  rewrite !bind_inr, main_prints_summary_line.
  destruct (summary_line t); reflexivity.
Qed.

(** ** The three packages of the script *)

Definition SWM_example : Training :=
  Swimming (Int 720) (Int 1) (Int 80) (Int 25) (Int 40).
Definition RUN_example : Training :=
  Running (Int 15000) (Int 1) (Int 75).
Definition WLK_example : Training :=
  SportsWalking (Int 9000) (Int 1) (Int 75) (Int 180).

(** The float that the Python literal [m * 10^(-k)] denotes, as a result. *)
Definition returns_literal (r : result num) (m : Z) (k : nat) : Prop :=
  r = inr (Float (decimal m k)).

Lemma read_package_examples :
  read_package "SWM" [Int 720; Int 1; Int 80; Int 25; Int 40] = inr SWM_example
  /\ read_package "RUN" [Int 15000; Int 1; Int 75] = inr RUN_example
  /\ read_package "WLK" [Int 9000; Int 1; Int 75; Int 180] = inr WLK_example.
Proof. repeat split; by_evaluation. Qed.

(** Where the walking calories leave 157.5, in integers.  The float 0.035
    is [5044031582654956 * 2^-57], above 0.035; its product with 75 is
    rounded to [5910974510923777 * 2^-51], one unit above 2.625, which is
    [5910974510923776 * 2^-51]. *)
Lemma walking_calories_rounding :
  decimal 35 3 = S754_finite false 5044031582654956 (-57)
  /\ 35 * 2 ^ 57 < 5044031582654956 * 1000
  /\ mul SportsWalking_SPEND_CALORIES_FACTOR (Int 75)
     = inr (Float (S754_finite false 5910974510923777 (-51)))
  /\ decimal 2625 3 = S754_finite false 5910974510923776 (-51).
Proof. repeat split; by_evaluation. Qed.

(** The walking calories once the mean speed has been computed: the speed
    is squared, and the square is floor-divided by the height. *)
Lemma walking_calories_after_speed {libm : Libm} (a d w h speed : num) :
  get_mean_speed (SportsWalking a d w h) = inr speed ->
  get_spent_calories (SportsWalking a d w h)
  = (x ← mul SportsWalking_SPEND_CALORIES_FACTOR w;
     squared ← pow speed SportsWalking_SPEND_CALORIES_FACTOR_1;
     quotient ← floordiv squared h;
     y ← mul quotient SportsWalking_SPEND_CALORIES_FACTOR_2;
     z ← mul y w;
     sum ← add x z;
     hourly ← mul sum d;
     mul hourly MIN_IN_HOUR).
Proof.
  intros Hs. unfold get_spent_calories.
  destruct (mul SportsWalking_SPEND_CALORIES_FACTOR w) as [e|x];
    [ reflexivity | ].
  rewrite !bind_inr, Hs, bind_inr. reflexivity.
Qed.

Section WalkingExamples.
Context {libm : Libm} {accurate : AccurateSquares libm}.

(** With accurate squares, the walking calories are those of one of three
    squares: the nearest float to the exact square of the speed, and its two
    neighbours. *)
Lemma walking_calories_candidates (a d w h : num) (s : bool) (m : positive)
    (e : Z) :
  get_mean_speed (SportsWalking a d w h) = inr (Float (S754_finite s m e)) ->
  is_one (S754_finite false m e) = false ->
  power_at_least m e 2 (-1022) = true ->
  power_at_least m e 2 1023 = false ->
  exists squared,
    within_an_ulp squared (rounded_power m e 2)
    /\ pow (Float (S754_finite s m e)) SportsWalking_SPEND_CALORIES_FACTOR_1
       = (if is_inf squared then raise OverflowError
          else mret (Float squared))
    /\ get_spent_calories (SportsWalking a d w h)
       = (x ← mul SportsWalking_SPEND_CALORIES_FACTOR w;
          squared ← (if is_inf squared then raise OverflowError
                     else mret (Float squared));
          quotient ← floordiv squared h;
          y ← mul quotient SportsWalking_SPEND_CALORIES_FACTOR_2;
          z ← mul y w;
          sum ← add x z;
          hourly ← mul sum d;
          mul hourly MIN_IN_HOUR).
Proof.
  intros Hs H1 Hlo Hhi.
  destruct (float_pow_square s m e H1 Hlo Hhi) as (y & Hy & Hp).
  assert (Hpow : pow (Float (S754_finite s m e))
                   SportsWalking_SPEND_CALORIES_FACTOR_1
                 = (if is_inf y then raise OverflowError
                    else mret (Float y))).
  { unfold pow, SportsWalking_SPEND_CALORIES_FACTOR_1. rewrite Hp.
    destruct (is_inf y); reflexivity. }
  exists y. split; [ exact Hy | ]. split; [ exact Hpow | ].
  rewrite (walking_calories_after_speed a d w h _ Hs), Hpow. reflexivity.
Qed.

(** A squared speed of [2^1024] or more: the calories are not computed. *)
Lemma walking_calories_overflow (a d w h : num) (s : bool) (m : positive)
    (e : Z) :
  get_mean_speed (SportsWalking a d w h) = inr (Float (S754_finite s m e)) ->
  is_one (S754_finite false m e) = false ->
  power_at_least m e 2 1024 = true ->
  convertible w ->
  pow (Float (S754_finite s m e)) SportsWalking_SPEND_CALORIES_FACTOR_1
  = inl OverflowError
  /\ get_spent_calories (SportsWalking a d w h) = inl OverflowError.
Proof.
  intros Hs H1 Hhi Hw.
  assert (Hpow : pow (Float (S754_finite s m e))
                   SportsWalking_SPEND_CALORIES_FACTOR_1
                 = inl OverflowError).
  { unfold pow, SportsWalking_SPEND_CALORIES_FACTOR_1.
    rewrite (float_pow_square_overflows s m e H1 Hhi). reflexivity. }
  split; [ exact Hpow | ].
  rewrite (walking_calories_after_speed a d w h _ Hs), Hpow.
  destruct (arith_returns_float_l Z.mul fmul (decimal 35 3) w Hw) as [x Hx].
  unfold SportsWalking_SPEND_CALORIES_FACTOR, mul. rewrite Hx. reflexivity.
Qed.

End WalkingExamples.

(** Evaluate the calories of the walk [t]: one goal for each of the three
    squares of its speed. *)
Ltac walking_calories t :=
  lazymatch eval hnf in t with
  | SportsWalking ?a ?d ?w ?h =>
      let v := eval vm_compute in (get_mean_speed t) in
      lazymatch v with
      | inr (Float (S754_finite ?s ?m ?e)) =>
          let y := fresh "squared" in
          let Hy := fresh "Hy" in
          let Hp := fresh "Hp" in
          let Hc := fresh "Hc" in
          destruct (walking_calories_candidates a d w h s m e)
            as (y & Hy & Hp & Hc); [ by_evaluation.. | ];
          destruct Hy as [Hy|[Hy|Hy]];
          (let c := lazymatch type of Hy with _ = ?c => c end in
           let n := eval vm_compute in c in
           assert (y = n) by (rewrite Hy; vm_compute; reflexivity);
           clear Hy; subst y; cbn [is_inf] in Hp, Hc)
      end
  end.

Section WalkingPackage.
Context {libm : Libm} {accurate : AccurateSquares libm}.

Lemma walking_example_calories :
  returns_literal (get_spent_calories WLK_example) 15750000000000003 14.
Proof.
  unfold returns_literal.
  walking_calories WLK_example; unfold WLK_example; rewrite Hc;
    by_evaluation.
Qed.

Lemma walking_example_line :
  summary_line WLK_example
  = inr "Тип тренировки: SportsWalking; Длительность: 1.000 ч.; Дистанция: 5.850 км; Ср. скорость: 5.850 км/ч; Потрачено ккал: 157.500."%string.
Proof.
  unfold summary_line, show_training_info.
  rewrite walking_example_calories. by_evaluation.
Qed.

(** What the script prints. *)
Lemma script_output :
  script packages [] = inr
    ["Тип тренировки: Swimming; Длительность: 1.000 ч.; Дистанция: 0.994 км; Ср. скорость: 1.000 км/ч; Потрачено ккал: 336.000.";
     "Тип тренировки: Running; Длительность: 1.000 ч.; Дистанция: 9.750 км; Ср. скорость: 9.750 км/ч; Потрачено ккал: 699.750.";
     "Тип тренировки: SportsWalking; Длительность: 1.000 ч.; Дистанция: 5.850 км; Ср. скорость: 5.850 км/ч; Потрачено ккал: 157.500."]%string.
Proof.
  assert (H1 : summary_line SWM_example
               = inr "Тип тренировки: Swimming; Длительность: 1.000 ч.; Дистанция: 0.994 км; Ср. скорость: 1.000 км/ч; Потрачено ккал: 336.000."%string)
    by by_evaluation.
  assert (H2 : summary_line RUN_example
               = inr "Тип тренировки: Running; Длительность: 1.000 ч.; Дистанция: 9.750 км; Ср. скорость: 9.750 км/ч; Потрачено ккал: 699.750."%string)
    by by_evaluation.
  pose proof walking_example_line as H3.
  destruct read_package_examples as (R1 & R2 & R3).
  unfold packages.
  rewrite script_step, R1, bind_inr, H1, bind_inr.
  rewrite script_step, R2, bind_inr, H2, bind_inr.
  rewrite script_step, R3, bind_inr, H3, bind_inr.
  reflexivity.
Qed.

End WalkingPackage.

(** C1, amended: for the walking package, distance and mean speed are both
    the float 5.85.  The calories of every walk are computed by squaring
    the speed first and floor-dividing the square by the height then.  On
    the package the square is 34.2225 to within one unit in the last place,
    as the platform returns it, and its quotient by the height 180 is 0.0;
    the calories are the float 157.50000000000003, one unit in the last
    place above 157.5 ([0.035 * 75] is already 2.6250000000000004), which
    the summary prints as 157.500.  The order shows on 30000 steps and a
    height of 100: the square of the speed 19.5 floor-divided by 100 is 3.0
    and the calories are 549.0, where floor-dividing first and squaring
    then would give 157.50000000000003. *)
Theorem C1_walking_example
    {libm : Libm} {accurate : AccurateSquares libm} :
  read_package "WLK" [Int 9000; Int 1; Int 75; Int 180] = inr WLK_example
  /\ returns_literal (get_distance WLK_example) 585 2
  /\ returns_literal (get_mean_speed WLK_example) 585 2
  /\ (forall a d w h,
        get_spent_calories (SportsWalking a d w h)
        = (x ← mul SportsWalking_SPEND_CALORIES_FACTOR w;
           speed ← get_mean_speed (SportsWalking a d w h);
           squared ← pow speed SportsWalking_SPEND_CALORIES_FACTOR_1;
           quotient ← floordiv squared h;
           y ← mul quotient SportsWalking_SPEND_CALORIES_FACTOR_2;
           z ← mul y w;
           sum ← add x z;
           hourly ← mul sum d;
           mul hourly MIN_IN_HOUR))
  /\ (exists squared,
        pow (Float (decimal 585 2)) SportsWalking_SPEND_CALORIES_FACTOR_1
        = inr (Float squared)
        /\ within_an_ulp squared (decimal 342225 4)
        /\ floordiv (Float squared) (Int 180) = inr (Float pzero))
  /\ returns_literal (mul SportsWalking_SPEND_CALORIES_FACTOR (Int 75))
       26250000000000004 16
  /\ returns_literal (get_spent_calories WLK_example) 15750000000000003 14
  /\ decimal 15750000000000003 14 = SFsucc prec emax (decimal 1575 1)
  /\ format_3f (Float (decimal 15750000000000003 14)) = inr "157.500"%string
  /\ returns_literal
       (get_mean_speed (SportsWalking (Int 30000) (Int 1) (Int 75) (Int 100)))
       195 1
  /\ (exists squared,
        pow (Float (decimal 195 1)) SportsWalking_SPEND_CALORIES_FACTOR_1
        = inr (Float squared)
        /\ within_an_ulp squared (decimal 38025 2)
        /\ floordiv (Float squared) (Int 100) = inr (Float (of_Z 3)))
  /\ returns_literal
       (get_spent_calories
          (SportsWalking (Int 30000) (Int 1) (Int 75) (Int 100)))
       549 0
  /\ returns_literal
       (x ← mul SportsWalking_SPEND_CALORIES_FACTOR (Int 75);
        quotient ← floordiv (Float (decimal 195 1)) (Int 100);
        squared ← pow quotient SportsWalking_SPEND_CALORIES_FACTOR_1;
        y ← mul squared SportsWalking_SPEND_CALORIES_FACTOR_2;
        z ← mul y (Int 75);
        sum ← add x z;
        hourly ← mul sum (Int 1);
        mul hourly MIN_IN_HOUR)
       15750000000000003 14.
Proof.
  assert (E1 : decimal 585 2 = S754_finite false 6586514455029350 (-50))
    by by_evaluation.
  assert (E2 : decimal 195 1 = S754_finite false 5488762045857792 (-48))
    by by_evaluation.
  split; [ by_evaluation | ]. split; [ by_evaluation | ].
  split; [ by_evaluation | ]. split; [ reflexivity | ].
  split.
  { rewrite E1. walking_calories WLK_example;
      eexists; (split; [ exact Hp | ]); (split; [ | by_evaluation ]).
    - left. by_evaluation.
    - right. left. by_evaluation.
    - right. right. by_evaluation. }
  split; [ by_evaluation | ]. split; [ exact walking_example_calories | ].
  split; [ by_evaluation | ]. split; [ by_evaluation | ].
  split; [ by_evaluation | ].
  split.
  { rewrite E2.
    walking_calories (SportsWalking (Int 30000) (Int 1) (Int 75) (Int 100));
      eexists; (split; [ exact Hp | ]); (split; [ | by_evaluation ]).
    - left. by_evaluation.
    - right. left. by_evaluation.
    - right. right. by_evaluation. }
  split.
  { unfold returns_literal.
    walking_calories (SportsWalking (Int 30000) (Int 1) (Int 75) (Int 100));
      rewrite Hc; by_evaluation. }
  by_evaluation.
Qed.

(** C1, as stated, fails: the walking example does not spend exactly 157.5
    kcal, whatever library with accurate squares computes the square.  The
    product [0.035 * 75] is already rounded up to 2.6250000000000004, and
    the factor 60 keeps the excess. *)
Lemma C1_walking_calories_not_157_5 :
  ~ (exists libm : Libm,
       AccurateSquares libm
       /\ returns_literal (get_distance WLK_example) 585 2
       /\ returns_literal (get_mean_speed WLK_example) 585 2
       /\ returns_literal (get_spent_calories WLK_example) 1575 1).
Proof.
  intros (libm & accurate & _ & _ & H).
  pose proof (@walking_example_calories libm accurate) as H'.
  unfold returns_literal in H, H'. rewrite H' in H.
  vm_compute in H. discriminate H.
Qed.

(** The hypothesis of C1 holds of the library that rounds correctly. *)
Lemma C1_walking_witness :
  AccurateSquares correctly_rounded_pow
  /\ returns_literal (get_spent_calories WLK_example) 15750000000000003 14
  /\ returns_literal
       (get_spent_calories
          (SportsWalking (Int 30000) (Int 1) (Int 75) (Int 100)))
       549 0.
Proof.
  split; [ exact correctly_rounded_pow_accurate | ].
  pose proof (@C1_walking_example correctly_rounded_pow
                correctly_rounded_pow_accurate) as H.
  split; [ apply H | apply H ].
Defined.

(** *** A walk whose calories depend on the library

    6000 steps in 0.2527994521853441 hours are a speed of
    15.427248620541512 km/h.  The nearest float to its exact square is
    237.99999999999997, and the next float is 238.0, twice the height 119:
    the quotient of the square by the height is 1.0 for the one and 2.0 for
    the other, and the calories are 72.806 or 105.797 kcal, as the library
    has it ([glibc] returns 238.0). *)

Definition brisk_walk : Training :=
  SportsWalking (Int 6000) (Float (decimal 2527994521853441 16))
    (Float (of_Z 75)) (Int 119).

Lemma brisk_walk_square :
  returns_literal (get_mean_speed brisk_walk) 15427248620541512 15
  /\ decimal 15427248620541512 15 = S754_finite false 8684768892352844 (-49)
  /\ rounded_power 8684768892352844 (-49) 2 = decimal 23799999999999997 14
  /\ SFsucc prec emax (decimal 23799999999999997 14) = of_Z 238
  /\ floordiv (Float (decimal 23799999999999997 14)) (Int 119)
     = inr (Float (of_Z 1))
  /\ floordiv (Float (of_Z 238)) (Int 119) = inr (Float (of_Z 2)).
Proof. repeat split; by_evaluation. Qed.

Lemma brisk_walk_calories {libm : Libm} {accurate : AccurateSquares libm} :
  returns_literal (get_spent_calories brisk_walk) 7280624222937912 14
  \/ returns_literal (get_spent_calories brisk_walk) 10579657073956653 14.
Proof.
  unfold returns_literal.
  walking_calories brisk_walk; unfold brisk_walk; rewrite Hc.
  - left. by_evaluation.
  - left. by_evaluation.
  - right. by_evaluation.
Qed.

Lemma brisk_walk_lines :
  format_3f (Float (decimal 7280624222937912 14)) = inr "72.806"%string
  /\ format_3f (Float (decimal 10579657073956653 14)) = inr "105.797"%string.
Proof. split; by_evaluation. Qed.

(** C2, as stated, fails: the running example does not spend 744.75 kcal,
    whatever the library is (a run squares nothing). *)
Lemma C2_running_calories_not_744_75 :
  ~ (exists libm : Libm,
       returns_literal (get_distance RUN_example) 975 2
       /\ returns_literal (get_mean_speed RUN_example) 975 2
       /\ returns_literal (get_spent_calories RUN_example) 74475 2).
Proof.
  intros (libm & _ & _ & H). vm_compute in H. discriminate H.
Qed.

(** C2, amended: for the running package, distance and mean speed are both
    9.75 and the calories are (18 * 9.75 - 20) * 75 / 1000 * (1 * 60), which
    is 699.75 (155.5 * 75 = 11662.5, divided by 1000 and multiplied by 60). *)
Theorem C2_running_example {libm : Libm} :
  read_package "RUN" [Int 15000; Int 1; Int 75] = inr RUN_example
  /\ returns_literal (get_distance RUN_example) 975 2
  /\ returns_literal (get_mean_speed RUN_example) 975 2
  /\ (a ← mul (Int 18) (Float (decimal 975 2));
      b ← sub a (Int 20);
      c ← mul b (Int 75);
      d ← truediv c (Int 1000);
      minutes ← mul (Int 1) (Int 60);
      mul d minutes) = get_spent_calories RUN_example
  /\ returns_literal (get_spent_calories RUN_example) 69975 2
  /\ format_3f (Float (decimal 69975 2)) = inr "699.750"%string.
Proof. repeat split; by_evaluation. Qed.

(** Where the swimming distance leaves 0.9936, in integers.  The float 1.38
    is [6214967485771284 * 2^-52], below 1.38; its product with 720 is
    rounded to [8739798026865868 * 2^-43], below 993.6; the quotient by 1000
    is [8949553179510649 * 2^-53], and the float 0.9936 is the next one. *)
Lemma swimming_distance_rounding :
  decimal 138 2 = S754_finite false 6214967485771284 (-52)
  /\ 6214967485771284 * 100 < 138 * 2 ^ 52
  /\ mul (Int 720) (LEN_STEP SWM_example)
     = inr (Float (S754_finite false 8739798026865868 (-43)))
  /\ 8739798026865868 * 10 < 9936 * 2 ^ 43
  /\ get_distance SWM_example
     = inr (Float (S754_finite false 8949553179510649 (-53)))
  /\ decimal 9936 4 = S754_finite false 8949553179510650 (-53).
Proof. repeat split; by_evaluation. Qed.

(** C3, as stated, fails: the swimming example's distance is not the float
    0.9936.  The product [720 * 1.38] is rounded down to 993.5999999999999,
    because the float 1.38 lies below 1.38. *)
Lemma C3_swimming_distance_not_0_9936 :
  ~ (exists libm : Libm,
       returns_literal (get_distance SWM_example) 9936 4
       /\ returns_literal (get_mean_speed SWM_example) 1 0
       /\ returns_literal (get_spent_calories SWM_example) 336 0).
Proof.
  intros (libm & H & _). vm_compute in H. discriminate H.
Qed.

(** C3, amended: for the swimming package, the distance is 720 * 1.38 / 1000
    with the swimming step length 1.38, which in binary64 is
    0.9935999999999999, one unit in the last place below 0.9936 (printed as
    0.994); the overridden mean speed is 25 * 40 / 1000 / 1 = 1.0; the
    calories are (1.0 + 1.1) * 2 * 80 = 336.0. *)
Theorem C3_swimming_example {libm : Libm} :
  read_package "SWM" [Int 720; Int 1; Int 80; Int 25; Int 40] = inr SWM_example
  /\ LEN_STEP SWM_example = Float (decimal 138 2)
  /\ returns_literal (mul (Int 720) (LEN_STEP SWM_example))
       9935999999999999 13
  /\ returns_literal (get_distance SWM_example) 9935999999999999 16
  /\ decimal 9935999999999999 16 = SFpred prec emax (decimal 9936 4)
  /\ format_3f (Float (decimal 9935999999999999 16)) = inr "0.994"%string
  /\ returns_literal (get_mean_speed SWM_example) 1 0
  /\ returns_literal (get_spent_calories SWM_example) 336 0.
Proof. repeat split; by_evaluation. Qed.

(** ** The dispatcher *)

Definition known_code (workout_type : string) : Prop :=
  workout_type = "SWM"%string \/ workout_type = "RUN"%string
  \/ workout_type = "WLK"%string.

Definition succeeds {A : Type} (r : result A) : Prop := exists a, r = inr a.

Definition unknown_workout_type : exn :=
  ValueError "Не известный тип тренировки.".

(** The error of a generated [__init__] that cannot bind its positional
    arguments. *)
Definition positional_binding_error (e : exn) : Prop :=
  match e with
  | TypeError_missing_positional _ | TypeError_too_many_positional _ _ => True
  | _ => False
  end.

Definition arity_error (c : class) (data : list num) : exn :=
  let params := init_params c in
  if (length data <? length params)%nat
  then TypeError_missing_positional (drop (length data) params)
  else TypeError_too_many_positional (S (length params)) (S (length data)).

(** The dictionary has exactly three keys. *)
Lemma types_training_lookup (workout_type : string) :
  types_training !! workout_type =
    if decide (workout_type = "SWM"%string) then Some Swimming_class
    else if decide (workout_type = "RUN"%string) then Some Running_class
    else if decide (workout_type = "WLK"%string) then Some SportsWalking_class
    else None.
Proof.
  unfold types_training.
  destruct (decide (workout_type = "SWM"%string)) as [->|H1]; [ reflexivity | ].
  rewrite lookup_insert_ne by congruence.
  destruct (decide (workout_type = "RUN"%string)) as [->|H2]; [ reflexivity | ].
  rewrite lookup_insert_ne by congruence.
  destruct (decide (workout_type = "WLK"%string)) as [->|H3]; [ reflexivity | ].
  rewrite lookup_singleton_ne by congruence. reflexivity.
Qed.

Ltac split_data data :=
  destruct data as [|? [|? [|? [|? [|? [|? ?]]]]]].

(** A class called with the right number of arguments builds the object,
    whatever the arguments are. *)
Lemma new_right_arity (c : class) (data : list num) :
  length data = length (init_params c) -> succeeds (new c data).
Proof.
  destruct c; split_data data; simpl; intros H; try discriminate H;
    eexists; reflexivity.
Qed.

Lemma new_wrong_arity (c : class) (data : list num) :
  length data <> length (init_params c) -> new c data = inl (arity_error c data).
Proof.
  destruct c; split_data data; simpl; intros H;
    solve [ reflexivity | exfalso; apply H; reflexivity ].
Qed.

Lemma new_inv (c : class) (data : list num) (t : Training) :
  new c data = inr t <->
  match c with
  | Swimming_class =>
      exists a d w l n, data = [a; d; w; l; n] /\ t = Swimming a d w l n
  | Running_class => exists a d w, data = [a; d; w] /\ t = Running a d w
  | SportsWalking_class =>
      exists a d w h, data = [a; d; w; h] /\ t = SportsWalking a d w h
  end.
Proof.
  split.
  - destruct c; split_data data; simpl; intros H; try discriminate H;
      injection H as <-; repeat eexists.
  - destruct c; intros H; decompose record H; subst; reflexivity.
Qed.

Lemma new_not_unknown (c : class) (data : list num) :
  new c data <> inl unknown_workout_type.
Proof.
  destruct (Nat.eq_dec (length data) (length (init_params c))) as [E|E].
  - destruct (new_right_arity c data E) as [t Ht]. congruence.
  - rewrite (new_wrong_arity c data E). unfold arity_error.
    destruct (_ <? _)%nat; discriminate.
Qed.

(** C4, as stated, fails: a known code does not make the call succeed;
    ["RUN"] with an empty argument list raises. *)
Lemma C4_known_code_wrong_arity_fails :
  ~ (forall workout_type data,
       succeeds (read_package workout_type data) <-> known_code workout_type).
Proof.
  intros H.
  destruct (proj2 (H "RUN"%string []) (or_intror (or_introl eq_refl)))
    as [t Ht].
  vm_compute in Ht. discriminate Ht.
Qed.

(** C4, amended: [read_package] succeeds exactly when the code is one of
    "SWM", "RUN", "WLK" and the argument list has as many elements as the
    class has fields (5, 3, 4); it then builds a [Swimming], [Running] or
    [SportsWalking] object whose fields are the arguments in declaration
    order.  It fails with the unknown-workout-type [ValueError] exactly when
    the code is none of the three, whatever the argument list. *)
Theorem C4_read_package_dispatch (workout_type : string) (data : list num) :
  (forall t, read_package workout_type data = inr t <->
     (workout_type = "SWM"%string /\
      exists a d w l n, data = [a; d; w; l; n] /\ t = Swimming a d w l n)
     \/ (workout_type = "RUN"%string /\
         exists a d w, data = [a; d; w] /\ t = Running a d w)
     \/ (workout_type = "WLK"%string /\
         exists a d w h, data = [a; d; w; h] /\ t = SportsWalking a d w h))
  /\ (read_package workout_type data = inl unknown_workout_type
      <-> ~ known_code workout_type).
Proof.
  unfold read_package. rewrite types_training_lookup. unfold known_code.
  destruct (decide (workout_type = "SWM"%string)) as [->|N1].
  { split; [ intros t; rewrite new_inv; split | split ].
    - intros Hn. left. auto.
    - intros [[_ Hn]|[[E _]|[E _]]]; [ exact Hn | discriminate E.. ].
    - intros Hn. exfalso. exact (new_not_unknown _ _ Hn).
    - intros Hn. exfalso. apply Hn. auto. }
  destruct (decide (workout_type = "RUN"%string)) as [->|N2].
  { split; [ intros t; rewrite new_inv; split | split ].
    - intros Hn. right. left. auto.
    - intros [[E _]|[[_ Hn]|[E _]]]; [ discriminate E | exact Hn | discriminate E ].
    - intros Hn. exfalso. exact (new_not_unknown _ _ Hn).
    - intros Hn. exfalso. apply Hn. auto. }
  destruct (decide (workout_type = "WLK"%string)) as [->|N3].
  { split; [ intros t; rewrite new_inv; split | split ].
    - intros Hn. right. right. auto.
    - intros [[E _]|[[E _]|[_ Hn]]]; [ discriminate E.. | exact Hn ].
    - intros Hn. exfalso. exact (new_not_unknown _ _ Hn).
    - intros Hn. exfalso. apply Hn. auto. }
  split; [ intros t; split | split ].
  - discriminate.
  - intros [[E _]|[[E _]|[E _]]]; contradiction.
  - intros _ [E|[E|E]]; contradiction.
  - reflexivity.
Qed.

(** C6, as stated, fails: a known code with the wrong number of arguments
    does not get an arity error of the dispatcher's own; ["RUN"] with two
    arguments fails inside the constructor, which cannot bind [weight]. *)
Lemma C6_wrong_arity_is_binding_error :
  ~ (forall workout_type c data,
       types_training !! workout_type = Some c ->
       length data <> length (init_params c) ->
       exists e, read_package workout_type data = inl e
                 /\ ~ positional_binding_error e).
Proof.
  intros H.
  destruct (H "RUN"%string Running_class [Int 15000; Int 1])
    as (e & He & Hne); [ reflexivity | discriminate | ].
  vm_compute in He. injection He as <-. apply Hne. exact I.
Qed.

(** C6, amended: when [read_package] is given a known code and an argument
    list whose length is not the number of fields of the class, it fails
    with the [TypeError] that the generated constructor raises while binding
    its positional arguments: the parameters left unbound when the list is
    too short, the two argument counts when it is too long.  The dispatcher
    makes no arity check of its own. *)
Theorem C6_wrong_arity_raises_TypeError
    (workout_type : string) (c : class) (data : list num) :
  types_training !! workout_type = Some c ->
  length data <> length (init_params c) ->
  read_package workout_type data = inl (arity_error c data)
  /\ positional_binding_error (arity_error c data).
Proof.
  intros Hc Hlen. unfold read_package. rewrite Hc. split.
  - apply new_wrong_arity. exact Hlen.
  - unfold arity_error. destruct (_ <? _)%nat; exact I.
Qed.

Lemma C6_wrong_arity_witness :
  read_package "RUN" [Int 15000; Int 1]
    = inl (TypeError_missing_positional ["weight"%string])
  /\ read_package "WLK" [Int 9000; Int 1; Int 75; Int 180; Int 7]
    = inl (TypeError_too_many_positional 5 6).
Proof.
  split.
  - apply (C6_wrong_arity_raises_TypeError "RUN" Running_class
             [Int 15000; Int 1]); [ reflexivity | discriminate ].
  - apply (C6_wrong_arity_raises_TypeError "WLK" SportsWalking_class
             [Int 9000; Int 1; Int 75; Int 180; Int 7]);
      [ reflexivity | discriminate ].
Defined.

(** ** What the methods raise and return *)

Lemma get_distance_raises_only (t : Training) :
  raises_only arith_error (get_distance t).
Proof.
  unfold get_distance.
  apply raises_only_bind; [ apply arith_raises_only | intros steps _ ].
  apply truediv_raises_only.
Qed.

Lemma get_mean_speed_raises_only (t : Training) :
  raises_only arith_error (get_mean_speed t).
Proof.
  destruct t; unfold get_mean_speed.
  1-3: apply raises_only_bind;
         [ apply get_distance_raises_only
         | intros d _; apply truediv_raises_only ].
  apply raises_only_bind; [ apply arith_raises_only | intros metres _ ].
  apply raises_only_bind; [ apply truediv_raises_only | intros km _ ].
  apply truediv_raises_only.
Qed.

Lemma get_mean_speed_returns_float (t : Training) (v : num) :
  get_mean_speed t = inr v -> exists f, v = Float f.
Proof.
  destruct t; unfold get_mean_speed.
  1-3: destruct (get_distance _) as [e|d]; simpl;
         [ discriminate | apply truediv_returns_float ].
  destruct (mul _ _) as [e|metres]; simpl; [ discriminate | ].
  destruct (truediv metres _) as [e|km]; simpl; [ discriminate | ].
  apply truediv_returns_float.
Qed.

Lemma LEN_STEP_positive (t : Training) :
  exists c, LEN_STEP t = Float c /\ positive_finite c.
Proof.
  destruct t; eexists; (split; [ reflexivity | ]);
    eexists _, _; vm_compute; reflexivity.
Qed.

Lemma M_IN_KM_nonzero : convertible_nonzero M_IN_KM.
Proof. apply convertible_nonzero_const; reflexivity. Qed.

(** Run one step of a computation: [L] proves that the step at the head of
    the goal returns a float. *)
Ltac run L :=
  let f := fresh "f" in
  let E := fresh "E" in
  destruct L as [f E]; unfold mul, add, sub; rewrite E; clear E;
  rewrite bind_inr.

Lemma get_distance_returns (t : Training) :
  isfinite (action t) = true -> returns_float (get_distance t).
Proof.
  intros Ha. unfold get_distance.
  destruct (LEN_STEP_positive t) as (c & -> & _).
  run (arith_returns_float_r Z.mul fmul (action t) c (convertible_finite _ Ha)).
  apply truediv_returns_float_l, M_IN_KM_nonzero.
Qed.

(** ** Readings of the annotated types *)

(** The fields every reading has: [action: int], [duration: float] and
    [weight: float], finite, with a positive duration and weight. *)
Definition valid_common (a d w : num) : bool :=
  is_int a && isfinite a
  && is_float d && isfinite d && gt0 d
  && is_float w && isfinite w && gt0 w.

(** A valid reading of one of the three workouts: every field is finite and
    of its annotated type, the duration, the weight and the height are
    positive, the pool fields ([length_pool: int], [count_pool: float]) are
    not negative. *)
Definition valid_reading (t : Training) : bool :=
  match t with
  | Base _ _ _ => false
  | Running a d w => valid_common a d w
  | SportsWalking a d w h =>
      valid_common a d w && is_int h && isfinite h && gt0 h
  | Swimming a d w l n =>
      valid_common a d w
      && is_int l && isfinite l && ge0 l
      && is_float n && isfinite n && ge0 n
  end.

(** ** Valid readings: non-negative distance and speed

    A valid reading, as the specification words it: every field is finite,
    the duration, the weight and the height are positive, the pool fields
    are not negative.  Nothing is asked of the kind of number: the
    annotations are not enforced, and the packages of the script put [int]s
    in every field. *)

Definition plausible_common (a d w : num) : bool :=
  isfinite a && isfinite d && gt0 d && isfinite w && gt0 w.

Definition plausible_reading (t : Training) : bool :=
  match t with
  | Base a d w | Running a d w => plausible_common a d w
  | SportsWalking a d w h => plausible_common a d w && isfinite h && gt0 h
  | Swimming a d w l n =>
      plausible_common a d w && isfinite l && ge0 l && isfinite n && ge0 n
  end.


(** The packages of the script are such readings, and none is the
    exception. *)
Lemma packages_have_nonnegative_outputs :
  Forall (fun t =>
            plausible_reading t = true /\ ge0 (action t) = true
            /\ (exists d, get_distance t = inr d /\ ge0 d = true)
            /\ (exists v, get_mean_speed t = inr v /\ ge0 v = true))
    [SWM_example; RUN_example; WLK_example].
Proof.
  repeat constructor; eexists; split; by_evaluation.
Qed.

(** The exception: a pool of 10^200 metres swum 10^200 times. *)
Lemma pool_product_can_overflow :
  plausible_reading (Swimming (Int 720) (Int 1) (Int 80)
                       (Int (10 ^ 200)) (Int (10 ^ 200))) = true
  /\ get_mean_speed (Swimming (Int 720) (Int 1) (Int 80)
                       (Int (10 ^ 200)) (Int (10 ^ 200)))
     = inl OverflowError.
Proof. split; by_evaluation. Qed.






(** ** Speed, duration and distance *)

(** [get_mean_speed () * duration] *)
Definition speed_times_duration (t : Training) : result num :=
  speed ← get_mean_speed t;
  mul speed (duration t).

(** [get_mean_speed () * duration == get_distance ()] *)
Definition speed_times_duration_is_distance (t : Training) : bool :=
  match speed_times_duration t, get_distance t with
  | inr p, inr d => eqb p d
  | _, _ => false
  end.

Definition on_land (t : Training) : Prop :=
  (exists a d w, t = Running a d w)
  \/ (exists a d w h, t = SportsWalking a d w h).

(** C9, as stated, fails: 3 steps in 3 hours are a valid running reading
    with distance 0.0019500000000000001, and a speed
    (0.0006500000000000001) that multiplied by 3 gives
    0.0019500000000000003: the quotient was rounded up, and so was the
    product. *)
Lemma C9_speed_times_duration_is_rounded :
  ~ (forall t, valid_reading t = true -> on_land t ->
       speed_times_duration_is_distance t = true).
Proof.
  intros H.
  specialize (H (Running (Int 3) (Float (of_Z 3)) (Float (of_Z 75)))
                eq_refl (or_introl (ex_intro _ _ (ex_intro _ _
                   (ex_intro _ _ eq_refl))))).
  vm_compute in H. discriminate H.
Qed.

(** The values of the reading that breaks the identity. *)
Lemma three_steps_in_three_hours :
  returns_literal
    (get_distance (Running (Int 3) (Float (of_Z 3)) (Float (of_Z 75))))
    19500000000000001 19
  /\ returns_literal
       (get_mean_speed (Running (Int 3) (Float (of_Z 3)) (Float (of_Z 75))))
       6500000000000001 19
  /\ returns_literal
       (speed_times_duration
          (Running (Int 3) (Float (of_Z 3)) (Float (of_Z 75))))
       19500000000000003 19.
Proof. repeat split; by_evaluation. Qed.

(** The step counts up to [n] for which the identity holds, at a given
    duration and 75 kg. *)
Definition identity_holds_up_to (n : nat) (hours : num) : bool :=
  forallb
    (fun a => speed_times_duration_is_distance
                (Running (Int (Z.of_nat a)) hours (Float (of_Z 75))))
    (seq 0 (S n)).

(** C9, amended: for Running and SportsWalking the mean speed is the float
    quotient of the distance by the duration, so speed times duration is the
    distance up to the rounding of that quotient: exactly on the running and
    walking packages and for every step count up to 2000 in one or two
    hours, but not for every valid reading.  For Swimming the speed is
    computed from the pool fields and not from the distance, and the
    identity fails on the swimming package: the distance is
    0.9935999999999999 km, speed times duration is 1.0 km. *)
Theorem C9_speed_is_distance_over_duration :
  (forall a d w,
     get_mean_speed (Running a d w)
     = (distance ← get_distance (Running a d w); truediv distance d))
  /\ (forall a d w h,
        get_mean_speed (SportsWalking a d w h)
        = (distance ← get_distance (SportsWalking a d w h);
           truediv distance d))
  /\ speed_times_duration_is_distance RUN_example = true
  /\ speed_times_duration_is_distance WLK_example = true
  /\ identity_holds_up_to 2000 (Float (of_Z 1)) = true
  /\ identity_holds_up_to 2000 (Float (of_Z 2)) = true
  /\ (forall a d w l n,
        get_mean_speed (Swimming a d w l n)
        = (metres ← mul l n; km ← truediv metres M_IN_KM; truediv km d))
  /\ returns_literal (get_distance SWM_example) 9935999999999999 16
  /\ returns_literal (speed_times_duration SWM_example) 1 0
  /\ speed_times_duration_is_distance SWM_example = false.
Proof.
  split; [ reflexivity | ]. split; [ reflexivity | ].
  split; [ by_evaluation | ]. split; [ by_evaluation | ].
  split; [ by_evaluation | ]. split; [ by_evaluation | ].
  split; [ reflexivity | ]. repeat split; by_evaluation.
Qed.

(** * Exceptions, output and signs *)

(** ** Reading a computation backwards *)

Lemma bind_returns {A B : Type} (m : result A) (k : A -> result B) (b : B) :
  (m ≫= k) = inr b -> exists a, m = inr a /\ k a = inr b.
Proof.
  destruct m as [e|a]; [ discriminate | ].
  intros H. exists a. split; [ reflexivity | exact H ].
Qed.

Lemma bind_raises {A B : Type} (m : result A) (k : A -> result B) (e : exn) :
  (m ≫= k) = inl e -> m = inl e \/ exists a, m = inr a /\ k a = inl e.
Proof.
  destruct m as [e'|a]; intros H.
  - left. injection H as <-. reflexivity.
  - right. exists a. split; [ reflexivity | exact H ].
Qed.

(** ** The methods return floats

    Every method divides, or multiplies by a float constant, before it
    returns: whatever kinds of numbers the fields hold, [int]s included, the
    distance, the speed and the calories are [float]s. *)

Lemma arith_float_l_returns_float iop fop (x : float) (b v : num) :
  arith iop fop (Float x) b = inr v -> is_float v = true.
Proof.
  unfold arith. intros H.
  assert (G : (x0 ← as_float (Float x); y ← as_float b;
               mret (Float (fop x0 y))) = inr v)
    by (destruct b; exact H).
  simpl in G. apply bind_returns in G. destruct G as (y & _ & G).
  injection G as <-. reflexivity.
Qed.

Lemma arith_float_r_returns_float iop fop (a : num) (y : float) (v : num) :
  arith iop fop a (Float y) = inr v -> is_float v = true.
Proof.
  unfold arith. intros H.
  assert (G : (x ← as_float a; y0 ← as_float (Float y);
               mret (Float (fop x y0))) = inr v)
    by (destruct a; exact H).
  apply bind_returns in G. destruct G as (x & _ & G).
  simpl in G. injection G as <-. reflexivity.
Qed.

(** [H] says that [+], [-] or [*] with a float operand returned [v]. *)
Ltac float_operand H :=
  first
    [ exact (arith_float_l_returns_float Z.mul fmul _ _ _ H)
    | exact (arith_float_l_returns_float Z.add fadd _ _ _ H)
    | exact (arith_float_l_returns_float Z.sub fsub _ _ _ H)
    | exact (arith_float_r_returns_float Z.mul fmul _ _ _ H)
    | exact (arith_float_r_returns_float Z.add fadd _ _ _ H)
    | exact (arith_float_r_returns_float Z.sub fsub _ _ _ H) ].

Lemma truediv_is_float (a b v : num) :
  truediv a b = inr v -> is_float v = true.
Proof.
  intros H. destruct (truediv_returns_float a b v H) as [f ->]. reflexivity.
Qed.

Lemma is_float_inv (v : num) : is_float v = true -> exists f, v = Float f.
Proof. destruct v as [z|f]; [ discriminate | ]. exists f. reflexivity. Qed.

Lemma get_distance_is_float (t : Training) (v : num) :
  get_distance t = inr v -> is_float v = true.
Proof.
  unfold get_distance. intros H.
  apply bind_returns in H. destruct H as (steps & _ & H).
  exact (truediv_is_float _ _ _ H).
Qed.

Lemma get_mean_speed_is_float (t : Training) (v : num) :
  get_mean_speed t = inr v -> is_float v = true.
Proof.
  intros H. destruct (get_mean_speed_returns_float t v H) as [f ->].
  reflexivity.
Qed.

Lemma get_spent_calories_is_float {libm : Libm} (t : Training) (v : num) :
  get_spent_calories t = inr v -> is_float v = true.
Proof.
  destruct t as [a d w|a d w|a d w h|a d w l n]; unfold get_spent_calories.
  - discriminate.
  - intros H.
    apply bind_returns in H. destruct H as (speed & _ & H).
    apply bind_returns in H. destruct H as (x1 & _ & H).
    apply bind_returns in H. destruct H as (x2 & _ & H).
    apply bind_returns in H. destruct H as (x3 & _ & H).
    apply bind_returns in H. destruct H as (x4 & H4 & H).
    apply bind_returns in H. destruct H as (minutes & _ & H).
    destruct (is_float_inv _ (truediv_is_float _ _ _ H4)) as [f ->].
    float_operand H.
  - intros H.
    apply bind_returns in H. destruct H as (x1 & H1 & H).
    apply bind_returns in H. destruct H as (speed & _ & H).
    apply bind_returns in H. destruct H as (sq & _ & H).
    apply bind_returns in H. destruct H as (x2 & _ & H).
    apply bind_returns in H. destruct H as (x3 & _ & H).
    apply bind_returns in H. destruct H as (x4 & _ & H).
    apply bind_returns in H. destruct H as (x5 & H5 & H).
    apply bind_returns in H. destruct H as (x6 & H6 & H).
    destruct (is_float_inv _ ltac:(float_operand H1)) as [f1 ->].
    destruct (is_float_inv _ ltac:(float_operand H5)) as [f5 ->].
    destruct (is_float_inv _ ltac:(float_operand H6)) as [f6 ->].
    float_operand H.
  - intros H.
    apply bind_returns in H. destruct H as (speed & _ & H).
    apply bind_returns in H. destruct H as (x1 & H1 & H).
    apply bind_returns in H. destruct H as (x2 & H2 & H).
    destruct (is_float_inv _ ltac:(float_operand H1)) as [f1 ->].
    destruct (is_float_inv _ ltac:(float_operand H2)) as [f2 ->].
    float_operand H.
Qed.

(** Whatever a method returns is a float. *)
Theorem methods_return_floats {libm : Libm} (t : Training) (v : num) :
  get_distance t = inr v \/ get_mean_speed t = inr v
  \/ get_spent_calories t = inr v ->
  is_float v = true.
Proof.
  intros [H|[H|H]].
  - exact (get_distance_is_float t v H).
  - exact (get_mean_speed_is_float t v H).
  - exact (get_spent_calories_is_float t v H).
Qed.

Lemma methods_return_floats_witness :
  get_spent_calories (Swimming (Int 720) (Int 1) (Int 80) (Int 25) (Int 40))
    = inr (Float (decimal 336 0))
  /\ is_float (Float (decimal 336 0)) = true.
Proof.
  assert (H : get_spent_calories
                (Swimming (Int 720) (Int 1) (Int 80) (Int 25) (Int 40))
              = inr (Float (decimal 336 0))) by by_evaluation.
  split; [ exact H | ].
  exact (methods_return_floats _ _ (or_intror (or_intror H))).
Defined.

(** ** What can go wrong, and why

    The arithmetic raises two exceptions.  [OverflowError] comes from
    converting an oversized [int], from dividing two [int]s whose quotient
    is too large, and from squaring; [ZeroDivisionError] comes from a
    divisor that is zero, and the only divisors that can be zero are the
    duration and the height. *)

(** [e] is [OverflowError], or [ZeroDivisionError] and then [cause] holds. *)
Definition fails_as (cause : Prop) (e : exn) : Prop :=
  e = OverflowError \/ (e = ZeroDivisionError /\ cause).

Lemma fails_as_weaken (C C' : Prop) {A : Type} (m : result A) :
  (C -> C') -> raises_only (fails_as C) m -> raises_only (fails_as C') m.
Proof.
  intros HC Hm e He. destruct (Hm e He) as [H|[H1 H2]].
  - left. exact H.
  - right. split; [ exact H1 | exact (HC H2) ].
Qed.

Lemma returns_fails_as (C : Prop) {A : Type} (a : A) :
  raises_only (fails_as C) (inr a : result A).
Proof. intros e H. discriminate H. Qed.

Lemma of_Z_is_zero (z : Z) : is_zero (of_Z z) = true -> z = 0.
Proof.
  destruct z as [|p|p]; intros H; [ reflexivity | exfalso.. ].
  - rewrite of_Z_nonzero in H by lia. discriminate H.
  - unfold of_Z in H. simpl in H.
    rewrite (binary_round_nonzero prec emax) in H; [ discriminate H | | ].
    + reflexivity.
    + unfold SpecFloat.emin, prec, emax. lia.
Qed.

Lemma as_float_zero (b : num) (y : float) :
  as_float b = inr y -> is_zero y = true -> eq0 b = true.
Proof.
  destruct b as [z|f]; simpl.
  - unfold float_of_int. destruct (is_inf (of_Z z)); [ discriminate | ].
    intros H Hz. injection H as <-.
    apply Z.eqb_eq. apply of_Z_is_zero, Hz.
  - intros H Hz. injection H as <-. exact Hz.
Qed.

Lemma as_float_fails (a : num) : raises_only (fails_as False) (as_float a).
Proof.
  destruct a as [z|f]; simpl; [ | apply returns_fails_as ].
  unfold float_of_int. destruct (is_inf (of_Z z)); intros e H;
    [ injection H as <-; left; reflexivity | discriminate H ].
Qed.

Lemma arith_fails iop fop (a b : num) :
  raises_only (fails_as False) (arith iop fop a b).
Proof.
  assert (G : raises_only (fails_as False)
                (x ← as_float a; y ← as_float b; mret (Float (fop x y)))).
  { apply raises_only_bind; [ apply as_float_fails | intros x _ ].
    apply raises_only_bind; [ apply as_float_fails | intros y _ ].
    apply returns_fails_as. }
  destruct a, b; try exact G. apply returns_fails_as.
Qed.

Lemma divisor_fails (b : num) (k : float -> num) (x : float) :
  raises_only (fails_as (eq0 b = true))
    (y ← as_float b;
     if is_zero y then raise ZeroDivisionError else mret (k y)).
Proof.
  intros e H. apply bind_raises in H. destruct H as [H|(y & Hy & H)].
  - destruct (as_float_fails b e H) as [->|[_ []]]. left. reflexivity.
  - destruct (is_zero y) eqn:Hz; [ | discriminate H ].
    injection H as <-. right. split; [ reflexivity | ].
    exact (as_float_zero b y Hy Hz).
Qed.

Lemma truediv_fails (a b : num) :
  raises_only (fails_as (eq0 b = true)) (truediv a b).
Proof.
  assert (G : raises_only (fails_as (eq0 b = true))
                (x ← as_float a; y ← as_float b;
                 if is_zero y then raise ZeroDivisionError
                 else mret (Float (fdiv x y)))).
  { apply raises_only_bind;
      [ apply (fails_as_weaken False); [ tauto | apply as_float_fails ]
      | intros x _ ].
    apply (divisor_fails b (fun y => Float (fdiv x y)) x). }
  destruct a as [x|x], b as [y|y]; try exact G.
  unfold truediv. intros e. simpl.
  destruct (y =? 0) eqn:Hy.
  - intros H. injection H as <-. right. split; reflexivity.
  - destruct (is_inf _); intros H;
      [ injection H as <-; left; reflexivity | discriminate H ].
Qed.

Lemma floordiv_fails (a b : num) :
  raises_only (fails_as (eq0 b = true)) (floordiv a b).
Proof.
  assert (G : raises_only (fails_as (eq0 b = true))
                (x ← as_float a; y ← as_float b;
                 if is_zero y then raise ZeroDivisionError
                 else mret (Float (float_floor_div x y)))).
  { apply raises_only_bind;
      [ apply (fails_as_weaken False); [ tauto | apply as_float_fails ]
      | intros x _ ].
    apply (divisor_fails b (fun y => Float (float_floor_div x y)) x). }
  destruct a as [x|x], b as [y|y]; try exact G.
  unfold floordiv. intros e. simpl.
  destruct (y =? 0) eqn:Hy; intros H;
    [ injection H as <-; right; split; reflexivity | discriminate H ].
Qed.

Lemma pow_fails {libm : Libm} (a : num) (n : positive) :
  raises_only (fails_as False) (pow a n).
Proof.
  destruct a as [x|x]; simpl; [ apply returns_fails_as | ].
  intros e H. destruct (float_pow x n) as [e'|f] eqn:Hp; [ | discriminate H ].
  injection H as <-. left. exact (float_pow_raises_overflow _ _ _ Hp).
Qed.

Lemma format_3f_fails (a : num) : raises_only (fails_as False) (format_3f a).
Proof.
  unfold format_3f. intros e H.
  destruct (as_float a) as [e'|f] eqn:Ha; [ | discriminate H ].
  injection H as <-. exact (as_float_fails a e' Ha).
Qed.

(** No divisor of the program is a constant zero. *)
Lemma truediv_M_IN_KM_fails (a : num) :
  raises_only (fails_as False) (truediv a M_IN_KM).
Proof.
  apply (fails_as_weaken (eq0 M_IN_KM = true)); [ discriminate | ].
  apply truediv_fails.
Qed.

Ltac fails_step :=
  first
    [ apply returns_fails_as
    | apply (fails_as_weaken False); [ tauto | ];
      first [ apply arith_fails | apply pow_fails | apply format_3f_fails
            | apply truediv_M_IN_KM_fails ] ].

Lemma get_distance_fails (t : Training) :
  raises_only (fails_as False) (get_distance t).
Proof.
  unfold get_distance.
  apply raises_only_bind; [ apply arith_fails | intros steps _ ].
  apply truediv_M_IN_KM_fails.
Qed.

Lemma get_mean_speed_fails (t : Training) :
  raises_only (fails_as (eq0 (duration t) = true)) (get_mean_speed t).
Proof.
  destruct t as [a d w|a d w|a d w h|a d w l n]; unfold get_mean_speed.
  1-3: apply raises_only_bind;
         [ apply (fails_as_weaken False); [ tauto | apply get_distance_fails ]
         | intros dist _; apply truediv_fails ].
  apply raises_only_bind; [ fails_step | intros metres _ ].
  apply raises_only_bind; [ fails_step | intros km _ ].
  apply truediv_fails.
Qed.

(** The fields that a method divides by. *)
Definition zero_divisor (t : Training) : Prop :=
  eq0 (duration t) = true
  \/ match t with
     | SportsWalking _ _ _ height => eq0 height = true
     | _ => False
     end.

Definition is_base (t : Training) : bool :=
  match t with Base _ _ _ => true | _ => false end.

Lemma get_spent_calories_fails {libm : Libm} (t : Training) :
  is_base t = false ->
  raises_only (fails_as (zero_divisor t)) (get_spent_calories t).
Proof.
  pose proof (get_mean_speed_fails t) as Hspeed.
  apply (fails_as_weaken _ (zero_divisor t)) in Hspeed;
    [ | intros H; left; exact H ].
  destruct t as [a d w|a d w|a d w h|a d w l n]; intros Hb;
    try discriminate Hb; unfold get_spent_calories.
  - apply raises_only_bind; [ exact Hspeed | intros speed _ ].
    do 5 (apply raises_only_bind; [ fails_step | intros ? _ ]).
    fails_step.
  - apply raises_only_bind; [ fails_step | intros x1 _ ].
    apply raises_only_bind; [ exact Hspeed | intros speed _ ].
    apply raises_only_bind; [ fails_step | intros sq _ ].
    apply raises_only_bind;
      [ apply (fails_as_weaken (eq0 h = true));
          [ intros H; right; exact H | apply floordiv_fails ]
      | intros x2 _ ].
    do 4 (apply raises_only_bind; [ fails_step | intros ? _ ]).
    fails_step.
  - apply raises_only_bind; [ exact Hspeed | intros speed _ ].
    do 2 (apply raises_only_bind; [ fails_step | intros ? _ ]).
    fails_step.
Qed.

Lemma get_message_fails (info : InfoMessage.t) :
  raises_only (fails_as False) (InfoMessage.get_message info).
Proof.
  unfold InfoMessage.get_message.
  do 4 (apply raises_only_bind; [ apply format_3f_fails | intros ? _ ]).
  apply returns_fails_as.
Qed.

Lemma summary_line_fails {libm : Libm} (t : Training) :
  is_base t = false ->
  raises_only (fails_as (zero_divisor t)) (summary_line t).
Proof.
  intros Hb. unfold summary_line, show_training_info.
  apply raises_only_bind;
    [ | intros info _; apply (fails_as_weaken False);
        [ tauto | apply get_message_fails ] ].
  apply raises_only_bind;
    [ apply (fails_as_weaken False); [ tauto | apply get_distance_fails ]
    | intros dist _ ].
  apply raises_only_bind;
    [ apply (fails_as_weaken (eq0 (duration t) = true));
        [ intros H; left; exact H | apply get_mean_speed_fails ]
    | intros speed _ ].
  apply raises_only_bind;
    [ apply get_spent_calories_fails, Hb | intros cal _ ].
  apply returns_fails_as.
Qed.

(** One turn of the loop of the script: read a package, print its line. *)
Definition run_package {libm : Libm} (workout_type : string) (data : list num)
    (stdout : list string) : result (list string) :=
  training ← read_package workout_type data;
  main training stdout.

Lemma read_package_not_base (workout_type : string) (data : list num)
    (t : Training) :
  read_package workout_type data = inr t -> is_base t = false.
Proof.
  unfold read_package.
  destruct (types_training !! workout_type) as [c|]; [ | discriminate ].
  rewrite new_inv. destruct c; intros H; decompose record H; subst;
    reflexivity.
Qed.

Lemma main_raises_what_summary_line_raises {libm : Libm}
    (t : Training) (stdout : list string) (e : exn) :
  main t stdout = inl e <-> summary_line t = inl e.
Proof.
  rewrite main_prints_summary_line.
  destruct (summary_line t) as [e'|line]; unfold mbind, result_bind, mret,
    result_ret; split; intros H;
    solve [ injection H as ->; reflexivity | discriminate H ].
Qed.

(** Every way in which reading a package and printing its line can fail:
    an unknown code, a wrong number of arguments, an overflow, or a division
    by a zero duration or height.  Nothing else is ever raised; in
    particular [NotImplementedError] is not. *)
Theorem run_package_failures {libm : Libm}
    (workout_type : string) (data : list num) (stdout : list string)
    (e : exn) :
  run_package workout_type data stdout = inl e ->
  (e = unknown_workout_type /\ ~ known_code workout_type)
  \/ (exists c, types_training !! workout_type = Some c
                /\ length data <> length (init_params c)
                /\ e = arity_error c data)
  \/ (exists t, read_package workout_type data = inr t
                /\ (e = OverflowError
                    \/ (e = ZeroDivisionError /\ zero_divisor t))).
Proof.
  unfold run_package. intros H.
  apply bind_raises in H. destruct H as [H|(t & Ht & H)].
  - unfold read_package in H.
    destruct (types_training !! workout_type) as [c|] eqn:Hc.
    + right. left. exists c. split; [ reflexivity | ].
      destruct (Nat.eq_dec (length data) (length (init_params c))) as [E|E].
      * destruct (new_right_arity c data E) as [t Ht]. congruence.
      * split; [ exact E | ].
        rewrite (new_wrong_arity c data E) in H. congruence.
    + left. split; [ injection H as <-; reflexivity | ].
      rewrite types_training_lookup in Hc. unfold known_code.
      repeat case_decide; try discriminate Hc. tauto.
  - right. right. exists t. split; [ exact Ht | ].
    apply main_raises_what_summary_line_raises in H.
    exact (summary_line_fails t (read_package_not_base _ _ _ Ht) e H).
Qed.

Lemma run_package_failures_witness :
  (ZeroDivisionError = unknown_workout_type /\ ~ known_code "WLK")
  \/ (exists c, types_training !! "WLK"%string = Some c
                /\ length [Int 9000; Int 1; Int 75; Int 0]
                   <> length (init_params c)
                /\ ZeroDivisionError
                   = arity_error c [Int 9000; Int 1; Int 75; Int 0])
  \/ (exists t, read_package "WLK" [Int 9000; Int 1; Int 75; Int 0] = inr t
                /\ (ZeroDivisionError = OverflowError
                    \/ (ZeroDivisionError = ZeroDivisionError
                        /\ zero_divisor t))).
Proof.
  apply (run_package_failures "WLK" [Int 9000; Int 1; Int 75; Int 0] []).
  by_evaluation.
Defined.

(** With a zero divisor a method raises. *)
Lemma get_mean_speed_zero_duration (t : Training) :
  eq0 (duration t) = true -> raises arith_error (get_mean_speed t).
Proof.
  intros Hd. destruct t; unfold get_mean_speed; simpl in Hd.
  1-3: apply raises_bind_later;
         [ apply get_distance_raises_only
         | intros dist _; apply truediv_by_zero; exact Hd ].
  apply raises_bind_later; [ apply arith_raises_only | intros metres _ ].
  apply raises_bind_later; [ apply truediv_raises_only | intros km _ ].
  apply truediv_by_zero. exact Hd.
Qed.

Lemma walking_zero_height {libm : Libm} (a d w h : num) :
  eq0 h = true ->
  raises arith_error (get_spent_calories (SportsWalking a d w h)).
Proof.
  intros Hh. unfold get_spent_calories.
  apply raises_bind_later; [ apply arith_raises_only | intros x _ ].
  apply raises_bind_later;
    [ apply get_mean_speed_raises_only | intros speed Hs ].
  destruct (get_mean_speed_returns_float _ _ Hs) as [f ->].
  apply raises_bind_later; [ apply pow_raises_only | intros sq Hsq ].
  destruct (pow_returns_float _ _ _ Hsq) as [g ->].
  apply raises_bind_now. rewrite (floordiv_float_by_zero g h Hh).
  exists ZeroDivisionError. split; [ reflexivity | left; reflexivity ].
Qed.

Lemma summary_line_zero_divisor {libm : Libm} (t : Training) :
  zero_divisor t -> raises arith_error (summary_line t).
Proof.
  intros Hz. unfold summary_line. apply raises_bind_now.
  unfold show_training_info.
  apply raises_bind_later; [ apply get_distance_raises_only | intros dist _ ].
  destruct Hz as [Hd|Hh].
  - apply raises_bind_now. apply get_mean_speed_zero_duration, Hd.
  - apply raises_bind_later;
      [ apply get_mean_speed_raises_only | intros speed _ ].
    apply raises_bind_now.
    destruct t as [a d w|a d w|a d w h|a d w l n]; try contradiction.
    apply walking_zero_height, Hh.
Qed.

(** [main] raises [ZeroDivisionError] exactly when the duration is zero, or
    the height of a walk is, and no overflow comes first. *)
Theorem main_zero_division {libm : Libm} (t : Training) (stdout : list string) :
  is_base t = false ->
  (main t stdout = inl ZeroDivisionError
   <-> zero_divisor t /\ main t stdout <> inl OverflowError).
Proof.
  intros Hb. split.
  - intros H. split; [ | congruence ].
    apply main_raises_what_summary_line_raises in H.
    destruct (summary_line_fails t Hb _ H) as [H'|[_ H']];
      [ discriminate H' | exact H' ].
  - intros [Hz Hno].
    destruct (summary_line_zero_divisor t Hz) as (e & He & [->| ->]).
    + apply main_raises_what_summary_line_raises. exact He.
    + exfalso. apply Hno.
      apply main_raises_what_summary_line_raises. exact He.
Qed.

Lemma main_zero_division_witness :
  main (Swimming (Int 720) (Int 0) (Int 80) (Int 25) (Int 40)) []
    = inl ZeroDivisionError
  <-> zero_divisor (Swimming (Int 720) (Int 0) (Int 80) (Int 25) (Int 40))
      /\ main (Swimming (Int 720) (Int 0) (Int 80) (Int 25) (Int 40)) []
         <> inl OverflowError.
Proof.
  apply (main_zero_division
           (Swimming (Int 720) (Int 0) (Int 80) (Int 25) (Int 40)) []).
  reflexivity.
Defined.

(** ** Zero divisors *)

(** C5, as stated, fails: a zero duration and a zero height are accepted at
    construction. *)
Lemma C5_zero_divisors_are_constructed :
  read_package "RUN" [Int 15000; Int 0; Int 75]
    = inr (Running (Int 15000) (Int 0) (Int 75))
  /\ read_package "WLK" [Int 9000; Int 1; Int 75; Int 0]
    = inr (SportsWalking (Int 9000) (Int 1) (Int 75) (Int 0)).
Proof. split; by_evaluation. Qed.

(** What [get_mean_speed] divides by the duration: the distance, and for a
    swim the length swum, in km. *)
Definition speed_dividend (t : Training) : result num :=
  match t with
  | Swimming _ _ _ length_pool count_pool =>
      metres ← mul length_pool count_pool;
      truediv metres M_IN_KM
  | _ => get_distance t
  end.

Lemma get_mean_speed_divides (t : Training) :
  get_mean_speed t
  = (dividend ← speed_dividend t; truediv dividend (duration t)).
Proof.
  destruct t as [a d w|a d w|a d w h|a d w l n]; try reflexivity.
  unfold get_mean_speed, speed_dividend. destruct (mul l n); reflexivity.
Qed.

Lemma speed_dividend_is_float (t : Training) (x : num) :
  speed_dividend t = inr x -> is_float x = true.
Proof.
  destruct t as [a d w|a d w|a d w h|a d w l n]; unfold speed_dividend;
    try apply get_distance_is_float.
  intros H. apply bind_returns in H. destruct H as (metres & _ & H).
  exact (truediv_is_float _ _ _ H).
Qed.

Lemma speed_dividend_fails (t : Training) :
  raises_only (fails_as False) (speed_dividend t).
Proof.
  destruct t as [a d w|a d w|a d w h|a d w l n]; unfold speed_dividend;
    try apply get_distance_fails.
  apply raises_only_bind; [ apply arith_fails | intros metres _ ].
  apply truediv_M_IN_KM_fails.
Qed.

Lemma truediv_float_by_zero (x : float) (b : num) :
  eq0 b = true -> truediv (Float x) b = inl ZeroDivisionError.
Proof.
  intros Hb. destruct b as [z|f]; simpl in Hb.
  - apply Z.eqb_eq in Hb. subst z. reflexivity.
  - destruct f; try discriminate Hb. reflexivity.
Qed.

(** With a zero duration the mean speed computes its dividend and raises. *)
Lemma get_mean_speed_by_zero (t : Training) :
  eq0 (duration t) = true ->
  get_mean_speed t = (speed_dividend t ;; raise ZeroDivisionError).
Proof.
  intros Hd. rewrite get_mean_speed_divides.
  destruct (speed_dividend t) as [e|x] eqn:Hx; [ reflexivity | ].
  destruct (is_float_inv x (speed_dividend_is_float t x Hx)) as [f ->].
  rewrite !bind_inr. apply truediv_float_by_zero, Hd.
Qed.

(** With a zero height the calories of a walk are not computed: after the
    product with the weight, the speed and its square comes the division. *)
Lemma walking_calories_by_zero {libm : Libm} (a d w h : num) :
  eq0 h = true ->
  get_spent_calories (SportsWalking a d w h)
  = (mul SportsWalking_SPEND_CALORIES_FACTOR w ;;
     speed ← get_mean_speed (SportsWalking a d w h);
     pow speed SportsWalking_SPEND_CALORIES_FACTOR_1 ;;
     raise ZeroDivisionError).
Proof.
  intros Hh. unfold get_spent_calories.
  destruct (mul SportsWalking_SPEND_CALORIES_FACTOR w) as [e|x];
    [ reflexivity | ].
  rewrite !bind_inr.
  destruct (get_mean_speed (SportsWalking a d w h)) as [e|speed] eqn:Hs;
    [ reflexivity | ].
  rewrite !bind_inr.
  destruct (get_mean_speed_returns_float _ _ Hs) as [f ->].
  destruct (pow (Float f) SportsWalking_SPEND_CALORIES_FACTOR_1)
    as [e|squared] eqn:Hp; [ reflexivity | ].
  rewrite !bind_inr.
  destruct (pow_returns_float _ _ _ Hp) as [g ->].
  rewrite (floordiv_float_by_zero g h Hh). reflexivity.
Qed.

(** C5, amended: constructing a calculator with a zero duration, or a
    walking calculator with a zero height, succeeds: the constructors bind
    their arguments without looking at them.  The zero shows later, as an
    exception and never as an infinity or a NaN.  With a zero duration
    [get_mean_speed] computes its dividend and raises [ZeroDivisionError],
    and [show_training_info] does so after the distance; with a zero height
    the walking [get_spent_calories] computes [0.035 * weight], the mean
    speed and its square, and raises [ZeroDivisionError].  When one of
    these earlier steps raises, its exception is the one that is seen: it
    is [OverflowError], from an [int] too large for a float (10^400 steps),
    from a quotient of two [int]s that is too large (a pool of 10^200
    metres swum 10^200 times), or from a square that is too large (10^200
    steps in an hour: every [int] converts and the speed is finite, its
    square is not). *)
Theorem C5_zero_divisor_raises_late
    {libm : Libm} {accurate : AccurateSquares libm} :
  (forall a d w, read_package "RUN" [a; d; w] = inr (Running a d w))
  /\ (forall a d w h,
        read_package "WLK" [a; d; w; h] = inr (SportsWalking a d w h))
  /\ (forall a d w l n,
        read_package "SWM" [a; d; w; l; n] = inr (Swimming a d w l n))
  /\ (forall t, eq0 (duration t) = true ->
        get_mean_speed t = (speed_dividend t ;; raise ZeroDivisionError)
        /\ show_training_info t
           = (get_distance t ;; speed_dividend t ;; raise ZeroDivisionError)
        /\ (forall e, get_distance t = inl e -> e = OverflowError)
        /\ (forall e, speed_dividend t = inl e -> e = OverflowError))
  /\ (forall a d w h, eq0 h = true ->
        get_spent_calories (SportsWalking a d w h)
        = (mul SportsWalking_SPEND_CALORIES_FACTOR w ;;
           speed ← get_mean_speed (SportsWalking a d w h);
           pow speed SportsWalking_SPEND_CALORIES_FACTOR_1 ;;
           raise ZeroDivisionError)
        /\ (forall e, mul SportsWalking_SPEND_CALORIES_FACTOR w = inl e ->
               e = OverflowError)
        /\ (forall speed e,
               pow speed SportsWalking_SPEND_CALORIES_FACTOR_1 = inl e ->
               e = OverflowError))
  /\ get_mean_speed (Running (Int 15000) (Int 0) (Int 75))
     = inl ZeroDivisionError
  /\ get_spent_calories (SportsWalking (Int 9000) (Int 1) (Int 75) (Int 0))
     = inl ZeroDivisionError
  /\ get_mean_speed (Running (Int (10 ^ 400)) (Int 0) (Int 75))
     = inl OverflowError
  /\ get_mean_speed
       (Swimming (Int 720) (Int 0) (Int 80) (Int (10 ^ 200)) (Int (10 ^ 200)))
     = inl OverflowError
  /\ (convertible (Int (10 ^ 200))
      /\ returns_literal
           (get_mean_speed
              (SportsWalking (Int (10 ^ 200)) (Float (of_Z 1))
                 (Float (of_Z 75)) (Int 0)))
           (65000000000000005 * 10 ^ 180) 0
      /\ pow (Float (decimal (65000000000000005 * 10 ^ 180) 0))
           SportsWalking_SPEND_CALORIES_FACTOR_1
         = inl OverflowError
      /\ get_spent_calories
           (SportsWalking (Int (10 ^ 200)) (Float (of_Z 1))
              (Float (of_Z 75)) (Int 0))
         = inl OverflowError).
Proof.
  assert (Honly : forall {A : Type} (m : result A),
            raises_only (fails_as False) m ->
            forall e, m = inl e -> e = OverflowError).
  { intros A m Hm e He. destruct (Hm e He) as [H|[_ []]]. exact H. }
  split; [ intros a d w; by_evaluation | ].
  split; [ intros a d w h; by_evaluation | ].
  split; [ intros a d w l n; by_evaluation | ].
  split.
  { intros t Hd. split; [ apply get_mean_speed_by_zero, Hd | ].
    split; [ | split ].
    - unfold show_training_info. rewrite (get_mean_speed_by_zero t Hd).
      destruct (get_distance t); [ reflexivity | ].
      rewrite !bind_inr. destruct (speed_dividend t); reflexivity.
    - apply Honly, get_distance_fails.
    - apply Honly, speed_dividend_fails. }
  split.
  { intros a d w h Hh. split; [ apply walking_calories_by_zero, Hh | ].
    split.
    - apply Honly, arith_fails.
    - intros speed. apply Honly, pow_fails. }
  split; [ by_evaluation | ].
  split.
  { walking_calories (SportsWalking (Int 9000) (Int 1) (Int 75) (Int 0));
      rewrite Hc; by_evaluation. }
  split; [ by_evaluation | ]. split; [ by_evaluation | ].
  assert (Hs : get_mean_speed
                 (SportsWalking (Int (10 ^ 200)) (Float (of_Z 1))
                    (Float (of_Z 75)) (Int 0))
               = inr (Float (S754_finite false 7832239561584374 601)))
    by by_evaluation.
  assert (E : decimal (65000000000000005 * 10 ^ 180) 0
              = S754_finite false 7832239561584374 601) by by_evaluation.
  destruct (walking_calories_overflow _ _ _ _ _ _ _ Hs) as [Hp Hc];
    [ by_evaluation | by_evaluation | apply convertible_float | ].
  split; [ apply convertible_finite; by_evaluation | ].
  split; [ unfold returns_literal; rewrite E; exact Hs | ].
  split; [ rewrite E; exact Hp | exact Hc ].
Qed.

(** The hypothesis of C5 holds of the library that rounds correctly. *)
Lemma C5_zero_divisor_witness :
  AccurateSquares correctly_rounded_pow
  /\ get_spent_calories (SportsWalking (Int 9000) (Int 1) (Int 75) (Int 0))
     = inl ZeroDivisionError
  /\ get_spent_calories
       (SportsWalking (Int (10 ^ 200)) (Float (of_Z 1)) (Float (of_Z 75))
          (Int 0))
     = inl OverflowError.
Proof.
  split; [ exact correctly_rounded_pow_accurate | ].
  pose proof (@C5_zero_divisor_raises_late correctly_rounded_pow
                correctly_rounded_pow_accurate) as H.
  split; [ apply H | apply H ].
Defined.

(** ** The base class *)

Lemma convertible_nonzero_intro (b : num) :
  isfinite b = true -> eq0 b = false -> convertible_nonzero b.
Proof.
  intros Hf Hz. destruct (convertible_finite b Hf) as [y Hy].
  exists y. split; [ exact Hy | ].
  destruct (is_zero y) eqn:E; [ | reflexivity ].
  rewrite (as_float_zero b y Hy E) in Hz. discriminate Hz.
Qed.

(** An object of the base class has a distance and a speed but no
    calories: whenever its distance and its speed can be computed, its
    summary raises [NotImplementedError], and otherwise what the arithmetic
    raised.  It is never printed. *)
Theorem base_summary_not_implemented {libm : Libm} (a d w : num)
    (stdout : list string) :
  (exists e, main (Base a d w) stdout = inl e)
  /\ (isfinite a = true -> isfinite d = true -> eq0 d = false ->
      main (Base a d w) stdout = inl NotImplementedError).
Proof.
  split.
  - rewrite main_prints_summary_line.
    unfold summary_line, show_training_info.
    destruct (get_distance (Base a d w)) as [e|dist]; [ exists e; reflexivity | ].
    destruct (get_mean_speed (Base a d w)) as [e|speed];
      [ exists e; reflexivity | ].
    exists NotImplementedError. reflexivity.
  - intros Fa Fd Zd.
    apply main_raises_what_summary_line_raises.
    unfold summary_line, show_training_info.
    assert (Hdist : returns_float (get_distance (Base a d w)))
      by (apply get_distance_returns; exact Fa).
    destruct Hdist as [dist Hdist].
    assert (Hspeed : returns_float (get_mean_speed (Base a d w))).
    { unfold get_mean_speed. rewrite Hdist, bind_inr.
      apply truediv_returns_float_l. simpl.
      apply convertible_nonzero_intro; assumption. }
    destruct Hspeed as [speed Hspeed].
    rewrite Hdist, bind_inr, Hspeed, bind_inr. reflexivity.
Qed.

Lemma base_summary_not_implemented_witness :
  main (Base (Int 9000) (Int 1) (Int 75)) [] = inl NotImplementedError.
Proof.
  apply (base_summary_not_implemented (Int 9000) (Int 1) (Int 75) []);
    reflexivity.
Defined.

(** ** The message never fails after the summary *)

Lemma truediv_float_l_divisor (x : float) (b v : num) :
  truediv (Float x) b = inr v -> convertible b.
Proof.
  unfold truediv, convertible. destruct b as [z|f].
  - simpl as_float. unfold mret, result_ret, mbind, result_bind.
    destruct (float_of_int z) as [e|y]; [ discriminate | ].
    intros _. exists y. reflexivity.
  - intros _. exists f. reflexivity.
Qed.

(** A mean speed was computed: the duration converts to a float. *)
Lemma get_mean_speed_converts_duration (t : Training) (v : num) :
  get_mean_speed t = inr v -> convertible (duration t).
Proof.
  destruct t as [a d w|a d w|a d w h|a d w l n]; unfold get_mean_speed;
    intros H.
  1-3: apply bind_returns in H; destruct H as (dist & Hd & H);
       destruct (is_float_inv _ (get_distance_is_float _ _ Hd)) as [f ->];
       exact (truediv_float_l_divisor _ _ _ H).
  apply bind_returns in H. destruct H as (metres & _ & H).
  apply bind_returns in H. destruct H as (km & Hkm & H).
  destruct (is_float_inv _ (truediv_is_float _ _ _ Hkm)) as [f ->].
  exact (truediv_float_l_divisor _ _ _ H).
Qed.

Lemma format_3f_convertible (a : num) :
  convertible a -> exists s, format_3f a = inr s.
Proof.
  intros [x Hx]. unfold format_3f. rewrite Hx.
  exists (float_format_3f x). reflexivity.
Qed.

Lemma show_training_info_message {libm : Libm} (t : Training)
    (info : InfoMessage.t) :
  show_training_info t = inr info ->
  exists line, InfoMessage.get_message info = inr line.
Proof.
  unfold show_training_info. intros H.
  apply bind_returns in H. destruct H as (dist & Hdist & H).
  apply bind_returns in H. destruct H as (speed & Hspeed & H).
  apply bind_returns in H. destruct H as (cal & Hcal & H).
  injection H as <-.
  destruct (is_float_inv _ (get_distance_is_float _ _ Hdist)) as [fd ->].
  destruct (is_float_inv _ (get_mean_speed_is_float _ _ Hspeed)) as [fs Es].
  destruct (is_float_inv _ (get_spent_calories_is_float _ _ Hcal)) as [fc ->].
  destruct (format_3f_convertible _
              (get_mean_speed_converts_duration _ _ Hspeed)) as [s Hs].
  subst speed. unfold InfoMessage.get_message.
  cbn [InfoMessage.duration InfoMessage.distance InfoMessage.speed
       InfoMessage.calories InfoMessage.training_type].
  rewrite Hs, bind_inr. eexists. reflexivity.
Qed.

(** Once the three methods have returned, the message is formatted and
    printed: [main] raises exactly what [show_training_info] raises, and
    prints a line exactly when [show_training_info] returns. *)
Theorem main_fails_only_in_the_summary {libm : Libm}
    (t : Training) (stdout : list string) :
  (forall e, main t stdout = inl e <-> show_training_info t = inl e)
  /\ ((exists printed, main t stdout = inr printed)
      <-> exists info, show_training_info t = inr info).
Proof.
  unfold main.
  destruct (show_training_info t) as [e'|info] eqn:Hinfo.
  - split.
    + intros e. split; intros H; injection H as <-; reflexivity.
    + split; intros [x H]; discriminate H.
  - destruct (show_training_info_message t info Hinfo) as [line Hline].
    rewrite bind_inr, Hline, bind_inr. split.
    + intros e. split; intros H; discriminate H.
    + split; intros _; eexists; reflexivity.
Qed.

(** ** The distance *)

Lemma get_distance_convertible (t : Training) :
  convertible (action t) -> returns_float (get_distance t).
Proof.
  intros Hc. unfold get_distance.
  destruct (LEN_STEP_positive t) as (c & -> & _).
  run (arith_returns_float_r Z.mul fmul (action t) c Hc).
  apply truediv_returns_float_l, M_IN_KM_nonzero.
Qed.

Lemma get_distance_converts_action (t : Training) (v : num) :
  get_distance t = inr v -> convertible (action t).
Proof.
  intros H. unfold get_distance in H.
  apply bind_returns in H. destruct H as (steps & Hs & _).
  destruct (LEN_STEP_positive t) as (c & Hc & _). rewrite Hc in Hs.
  unfold mul, arith in Hs. destruct (action t) as [z|f].
  - apply bind_returns in Hs. destruct Hs as (x & Hx & _).
    exists x. exact Hx.
  - exists f. reflexivity.
Qed.

(** The distance is computed whenever the action count converts to a float,
    and only then: the one failure of [get_distance] is the [OverflowError]
    of an [int] beyond the range of a float. *)
Theorem get_distance_returns_iff (t : Training) :
  ((exists v, get_distance t = inr v) <-> convertible (action t))
  /\ (get_distance t = inl OverflowError <-> ~ convertible (action t))
  /\ (forall e, get_distance t = inl e -> e = OverflowError).
Proof.
  assert (Hexn : forall e, get_distance t = inl e -> e = OverflowError).
  { intros e He.
    destruct (get_distance_fails t e He) as [H|[_ []]]. exact H. }
  split; [ | split ].
  - split.
    + intros [v Hv]. exact (get_distance_converts_action t v Hv).
    + intros Hc. destruct (get_distance_convertible t Hc) as [f Hf].
      exists (Float f). exact Hf.
  - split.
    + intros H Hc. destruct (get_distance_convertible t Hc) as [f Hf].
      congruence.
    + intros Hn. pose proof (get_distance_converts_action t) as Hc.
      destruct (get_distance t) as [e|v].
      * rewrite (Hexn e eq_refl). reflexivity.
      * exfalso. exact (Hn (Hc v eq_refl)).
  - exact Hexn.
Qed.

(** The mean speed of the base class, which [Running] and [SportsWalking]
    inherit. *)
Definition inherits_mean_speed (t : Training) : bool :=
  match t with Swimming _ _ _ _ _ => false | _ => true end.

Lemma truediv_float_l_divisor_nonzero (x : float) (b v : num) :
  truediv (Float x) b = inr v -> convertible_nonzero b.
Proof.
  intros H. destruct (truediv_float_l_divisor x b v H) as [y Hy].
  exists y. split; [ exact Hy | ].
  unfold truediv in H. destruct b as [z|f].
  - simpl as_float in H, Hy. rewrite Hy in H.
    unfold mret, result_ret, mbind, result_bind in H.
    destruct (is_zero y); [ discriminate H | reflexivity ].
  - injection Hy as ->.
    unfold as_float, mret, result_ret, mbind, result_bind in H.
    destruct (is_zero y); [ discriminate H | reflexivity ].
Qed.

(** The inherited mean speed is computed exactly when the action count
    converts to a float and the duration converts to a float that is not
    zero. *)
Theorem inherited_mean_speed_returns_iff (t : Training) :
  inherits_mean_speed t = true ->
  ((exists v, get_mean_speed t = inr v)
   <-> convertible (action t) /\ convertible_nonzero (duration t)).
Proof.
  intros Hi.
  assert (E : get_mean_speed t
              = (distance ← get_distance t; truediv distance (duration t)))
    by (destruct t; [ reflexivity.. | discriminate Hi ]).
  rewrite E. clear E. split.
  - intros [v H]. apply bind_returns in H. destruct H as (dist & Hd & H).
    split; [ exact (get_distance_converts_action t dist Hd) | ].
    destruct (is_float_inv _ (get_distance_is_float _ _ Hd)) as [f ->].
    exact (truediv_float_l_divisor_nonzero _ _ _ H).
  - intros [Ha Hd]. destruct (get_distance_convertible t Ha) as [f ->].
    rewrite bind_inr.
    destruct (truediv_returns_float_l f (duration t) Hd) as [q Hq].
    exists (Float q). exact Hq.
Qed.

Lemma inherited_mean_speed_returns_iff_witness :
  (exists v, get_mean_speed (Running (Int 15000) (Int 1) (Int 75)) = inr v)
  <-> convertible (Int 15000) /\ convertible_nonzero (Int 1).
Proof.
  apply (inherited_mean_speed_returns_iff
           (Running (Int 15000) (Int 1) (Int 75))).
  reflexivity.
Defined.

(** ** The script *)

Lemma bind_assoc {A B C : Type} (m : result A) (f : A -> result B)
    (g : B -> result C) :
  ((m ≫= f) ≫= g) = (m ≫= fun a => f a ≫= g).
Proof. destruct m; reflexivity. Qed.

(** The line of one package. *)
Definition package_line {libm : Libm} (p : string * list num) : result string :=
  training ← read_package p.1 p.2;
  summary_line training.

Lemma script_cons {libm : Libm} (p : string * list num)
    (rest : list (string * list num))
    (stdout : list string) :
  script (p :: rest) stdout
  = (line ← package_line p; script rest (stdout ++ [line])).
Proof.
  destruct p as [workout_type data]. unfold package_line. simpl.
  destruct (read_package workout_type data) as [e|t]; [ reflexivity | ].
  rewrite !bind_inr, main_prints_summary_line.
  destruct (summary_line t); reflexivity.
Qed.

(** The lines of the packages [ps], in order. *)
Definition lines_of {libm : Libm} (ps : list (string * list num))
    (lines : list string)
    : Prop :=
  Forall2 (fun p line => package_line p = inr line) ps lines.

(** The script prints one line for each package, in the order of the
    packages, after what had been printed before; it does so exactly when
    every package has a line. *)
Theorem script_prints_one_line_per_package {libm : Libm}
    (ps : list (string * list num)) (stdout printed : list string) :
  script ps stdout = inr printed
  <-> exists lines, lines_of ps lines /\ printed = stdout ++ lines.
Proof.
  revert stdout printed. induction ps as [|p rest IH]; intros stdout printed.
  - simpl. split.
    + intros H. injection H as <-. exists []. split; [ constructor | ].
      rewrite app_nil_r. reflexivity.
    + intros (lines & Hl & ->). inversion Hl. rewrite app_nil_r. reflexivity.
  - rewrite script_cons. split.
    + intros H. apply bind_returns in H. destruct H as (line & Hline & H).
      apply IH in H. destruct H as (lines & Hl & ->).
      exists (line :: lines). split; [ constructor; assumption | ].
      rewrite <- app_assoc. reflexivity.
    + intros (lines & Hl & ->). inversion Hl as [|? line ? lines' Hp Hr]; subst.
      rewrite Hp, bind_inr. apply IH. exists lines'.
      split; [ exact Hr | ]. rewrite <- app_assoc. reflexivity.
Qed.

(** The script stops at the first package that has no line, with the
    exception of that package: the packages before it have been printed,
    those after it are not read. *)
Theorem script_stops_at_the_first_failure {libm : Libm}
    (ps : list (string * list num)) (stdout : list string) (e : exn) :
  script ps stdout = inl e
  <-> exists before p after lines,
        ps = before ++ p :: after
        /\ lines_of before lines
        /\ package_line p = inl e.
Proof.
  revert stdout. induction ps as [|p rest IH]; intros stdout.
  - simpl. split.
    + intros H. discriminate H.
    + intros (before & p & after & lines & H & _). destruct before; discriminate H.
  - rewrite script_cons. split.
    + intros H. apply bind_raises in H. destruct H as [H|(line & Hline & H)].
      * exists [], p, rest, []. repeat split; [ constructor | exact H ].
      * apply IH in H. destruct H as (before & q & after & lines & -> & Hl & Hq).
        exists (p :: before), q, after, (line :: lines).
        repeat split; [ constructor; assumption | exact Hq ].
    + intros (before & q & after & lines & Hps & Hl & Hq).
      destruct before as [|p' before]; simpl in Hps; injection Hps as -> ->.
      * rewrite Hq. reflexivity.
      * inversion Hl as [|? line ? lines' Hp Hr]; subst.
        rewrite Hp, bind_inr. apply IH.
        exists before, q, after, lines'. repeat split; assumption.
Qed.

(** Running the script on two lists of packages one after the other is
    running it on their concatenation. *)
Lemma script_app {libm : Libm} (ps1 ps2 : list (string * list num))
    (stdout : list string) :
  script (ps1 ++ ps2) stdout
  = (printed ← script ps1 stdout; script ps2 printed).
Proof.
  revert stdout. induction ps1 as [|p rest IH]; intros stdout.
  - reflexivity.
  - rewrite <- app_comm_cons, !script_cons, bind_assoc.
    destruct (package_line p) as [e|line]; [ reflexivity | ].
    rewrite !bind_inr. apply IH.
Qed.

(** ** What the line shows *)

(** [MESSAGE_TEXT] filled with a class name and four floats. *)
Definition message_text (training_type : string)
    (duration distance speed calories : float) : string :=
  "Тип тренировки: " +:+ training_type +:+ "; "
  +:+ "Длительность: " +:+ float_format_3f duration +:+ " ч.; "
  +:+ "Дистанция: " +:+ float_format_3f distance +:+ " км; "
  +:+ "Ср. скорость: " +:+ float_format_3f speed +:+ " км/ч; "
  +:+ "Потрачено ккал: " +:+ float_format_3f calories +:+ ".".

Lemma get_message_of_floats (name : string) (duration : num)
    (d dist sp cal : float) :
  as_float duration = inr d ->
  InfoMessage.get_message
    (InfoMessage.Build name duration (Float dist) (Float sp) (Float cal))
  = inr (message_text name d dist sp cal).
Proof.
  intros Hd. unfold InfoMessage.get_message, format_3f.
  cbn [InfoMessage.duration InfoMessage.distance InfoMessage.speed
       InfoMessage.calories InfoMessage.training_type].
  rewrite Hd. reflexivity.
Qed.

(** What a line says of the workout it was printed for. *)
Lemma summary_line_content {libm : Libm} (t : Training) (line : string) :
  summary_line t = inr line ->
  exists d dist sp cal,
    as_float (duration t) = inr d
    /\ get_distance t = inr (Float dist)
    /\ get_mean_speed t = inr (Float sp)
    /\ get_spent_calories t = inr (Float cal)
    /\ line = message_text (class_name t) d dist sp cal.
Proof.
  unfold summary_line, show_training_info. intros H.
  apply bind_returns in H. destruct H as (info & H & Hline).
  apply bind_returns in H. destruct H as (dist & Hdist & H).
  apply bind_returns in H. destruct H as (speed & Hspeed & H).
  apply bind_returns in H. destruct H as (cal & Hcal & H).
  injection H as <-.
  destruct (is_float_inv _ (get_distance_is_float _ _ Hdist)) as [fd ->].
  destruct (is_float_inv _ (get_mean_speed_is_float _ _ Hspeed)) as [fs Es].
  destruct (is_float_inv _ (get_spent_calories_is_float _ _ Hcal))
    as [fc ->].
  destruct (get_mean_speed_converts_duration _ _ Hspeed) as [d Hd].
  subst speed.
  rewrite (get_message_of_floats _ _ d fd fs fc Hd) in Hline.
  injection Hline as <-.
  exists d, fd, fs, fc. repeat split; assumption.
Qed.

(** The line of a workout shows the name of its class and, to three
    decimals each, its duration as a float and the floats its three methods
    return; there is a line exactly when the three methods return. *)
Theorem summary_line_shows_the_methods {libm : Libm} (t : Training)
    (line : string) :
  summary_line t = inr line
  <-> exists d dist sp cal,
        as_float (duration t) = inr d
        /\ get_distance t = inr (Float dist)
        /\ get_mean_speed t = inr (Float sp)
        /\ get_spent_calories t = inr (Float cal)
        /\ line = message_text (class_name t) d dist sp cal.
Proof.
  split.
  - apply summary_line_content.
  - unfold summary_line, show_training_info.
    intros (d & dist & sp & cal & Hd & -> & -> & -> & ->).
    rewrite !bind_inr. apply get_message_of_floats, Hd.
Qed.

(** ** Determinism of the summary *)

Lemma gt0_not_eq0 (a : num) : gt0 a = true -> eq0 a = false.
Proof.
  destruct a as [z|f]; simpl; intros H.
  - apply Z.ltb_lt in H. apply Z.eqb_neq. lia.
  - destruct f; try discriminate H; reflexivity.
Qed.

(** A valid reading has no zero divisor. *)
Lemma plausible_reading_divisors (t : Training) :
  plausible_reading t = true -> ~ zero_divisor t.
Proof.
  intros Hv [Hd|Hh].
  - assert (Pd : gt0 (duration t) = true).
    { destruct t; simpl in Hv |- *; unfold plausible_common in Hv;
        repeat (apply andb_prop in Hv;
                let H := fresh "H" in destruct Hv as [Hv H]);
        assumption. }
    rewrite (gt0_not_eq0 _ Pd) in Hd. discriminate Hd.
  - destruct t as [a d w|a d w|a d w h|a d w l n]; try contradiction.
    simpl in Hv. apply andb_prop in Hv. destruct Hv as [_ Ph].
    rewrite (gt0_not_eq0 _ Ph) in Hh. discriminate Hh.
Qed.

(** C8: the summary is deterministic.  Two calculators built from the same
    package behave alike, whatever the package is and whatever was printed
    before each call: either both print the same line, byte for byte, which
    shows the class, the duration and what the three methods return, and a
    second call on the same calculator prints that line again; or both
    raise the same exception, [OverflowError] or the [ZeroDivisionError] of
    a zero divisor.  A valid reading has no zero divisor: it prints its
    line, unless its arithmetic raises [OverflowError]. *)
Theorem C8_summary_is_deterministic {libm : Libm}
    (workout_type : string) (data : list num) (t1 t2 : Training)
    (stdout1 stdout2 : list string) :
  read_package workout_type data = inr t1 ->
  read_package workout_type data = inr t2 ->
  ((exists line d dist sp cal,
      as_float (duration t1) = inr d
      /\ get_distance t1 = inr (Float dist)
      /\ get_mean_speed t1 = inr (Float sp)
      /\ get_spent_calories t1 = inr (Float cal)
      /\ line = message_text (class_name t1) d dist sp cal
      /\ main t1 stdout1 = inr (stdout1 ++ [line])
      /\ main t2 stdout2 = inr (stdout2 ++ [line])
      /\ (printed ← main t1 stdout1; main t1 printed)
         = inr (stdout1 ++ [line; line]))
   \/ (exists e,
         main t1 stdout1 = inl e
         /\ main t2 stdout2 = inl e
         /\ (e = OverflowError
             \/ (e = ZeroDivisionError /\ zero_divisor t1))))
  /\ (plausible_reading t1 = true ->
      (exists line,
         main t1 stdout1 = inr (stdout1 ++ [line])
         /\ main t2 stdout2 = inr (stdout2 ++ [line]))
      \/ (main t1 stdout1 = inl OverflowError
          /\ main t2 stdout2 = inl OverflowError)).
Proof.
  intros H1 H2. assert (t1 = t2) as <- by congruence.
  pose proof (summary_line_fails t1 (read_package_not_base _ _ _ H1))
    as Hfails.
  rewrite !main_prints_summary_line.
  destruct (summary_line t1) as [e|line] eqn:Hline.
  - split.
    + right. exists e. repeat split. exact (Hfails e eq_refl).
    + intros Hv. right.
      destruct (Hfails e eq_refl) as [->|[_ Hz]];
        [ split; reflexivity | ].
      exfalso. exact (plausible_reading_divisors t1 Hv Hz).
  - split.
    + left.
      destruct (summary_line_content t1 line Hline)
        as (d & dist & sp & cal & Hd & Hdist & Hsp & Hcal & Htext).
      exists line, d, dist, sp, cal.
      repeat (split; [ assumption || reflexivity | ]).
      unfold mbind, result_bind, mret, result_ret.
      rewrite main_prints_summary_line, Hline.
      unfold mbind, result_bind, mret, result_ret.
      rewrite <- app_assoc. reflexivity.
    + intros _. left. exists line. split; reflexivity.
Qed.

Lemma C8_deterministic_witness :
  read_package "RUN" [Int 15000; Int 1; Int 75] = inr RUN_example
  /\ plausible_reading RUN_example = true
  /\ exists line,
       main RUN_example [] = inr ([] ++ [line])
       /\ main RUN_example ["earlier output"%string]
          = inr (["earlier output"%string] ++ [line]).
Proof.
  split; [ reflexivity | ]. split; [ reflexivity | ].
  destruct (C8_summary_is_deterministic "RUN" [Int 15000; Int 1; Int 75]
              RUN_example RUN_example [] ["earlier output"%string])
    as [_ H]; [ reflexivity | reflexivity | ].
  destruct (H eq_refl) as [Hline|[Hraise _]].
  - exact Hline.
  - exfalso. vm_compute in Hraise. discriminate Hraise.
Defined.

(** ** The calories of a swim *)



Lemma arith_float_l_value (iop : Z -> Z -> Z)
    (fop : float -> float -> float) (x : float) (b : num) (y : float) :
  as_float b = inr y -> arith iop fop (Float x) b = inr (Float (fop x y)).
Proof.
  intros Hy. unfold arith. rewrite Hy. reflexivity.
Qed.



(** ** The message on its own *)

Lemma format_3f_returns_iff (a : num) :
  (exists s, format_3f a = inr s) <-> convertible a.
Proof.
  unfold format_3f, convertible. split.
  - intros [s H]. destruct (as_float a) as [e|x]; [ discriminate H | ].
    exists x. reflexivity.
  - intros [x ->]. exists (float_format_3f x). reflexivity.
Qed.

(** The fields of an [InfoMessage] are not checked when it is built.  Its
    message is formatted exactly when each of the four numbers converts to
    a float; otherwise [get_message] raises [OverflowError]. *)
Theorem get_message_returns_iff (info : InfoMessage.t) :
  ((exists line, InfoMessage.get_message info = inr line)
   <-> convertible (InfoMessage.duration info)
       /\ convertible (InfoMessage.distance info)
       /\ convertible (InfoMessage.speed info)
       /\ convertible (InfoMessage.calories info))
  /\ (forall e, InfoMessage.get_message info = inl e -> e = OverflowError).
Proof.
  split.
  - unfold InfoMessage.get_message. split.
    + intros [line H].
      apply bind_returns in H. destruct H as (s1 & H1 & H).
      apply bind_returns in H. destruct H as (s2 & H2 & H).
      apply bind_returns in H. destruct H as (s3 & H3 & H).
      apply bind_returns in H. destruct H as (s4 & H4 & H).
      repeat split; apply format_3f_returns_iff; eexists; eassumption.
    + intros (H1 & H2 & H3 & H4).
      apply format_3f_returns_iff in H1, H2, H3, H4.
      destruct H1 as [s1 ->], H2 as [s2 ->], H3 as [s3 ->], H4 as [s4 ->].
      eexists. reflexivity.
  - intros e He.
    destruct (get_message_fails info e He) as [H|[_ []]]. exact H.
Qed.

(** ** Negative calories *)

(** [18 * get_mean_speed () < 20] *)
Definition speed_factor_below_20 (t : Training) : bool :=
  match speed ← get_mean_speed t; mul Running_SPEND_CALORIES_FACTOR speed with
  | inr p => ltb p Running_SPEND_CALORIES_FACTOR_1
  | inl _ => false
  end.

(** [get_spent_calories () < 0] *)
Definition calories_negative {libm : Libm} (t : Training) : bool :=
  match get_spent_calories t with
  | inr c => ltb c (Int 0)
  | inl _ => false
  end.

(** [get_spent_calories () > 0] *)
Definition calories_positive {libm : Libm} (t : Training) : bool :=
  match get_spent_calories t with
  | inr c => ltb (Int 0) c
  | inl _ => false
  end.

(** A run of [steps] steps in one hour at 75 kg. *)
Definition one_hour_run (steps : Z) : Training :=
  Running (Int steps) (Float (of_Z 1)) (Float (of_Z 75)).

Definition slow_run {libm : Libm} (steps : Z) : bool :=
  valid_reading (one_hour_run steps)
  && speed_factor_below_20 (one_hour_run steps)
  && calories_negative (one_hour_run steps).

Lemma slow_runs_checked {libm : Libm} :
  forallb (fun a => slow_run (Z.of_nat a)) (seq 0 1710) = true.
Proof. by_evaluation. Qed.

(** *** The sign of a difference, a product and a quotient *)

Lemma iter_xO_value (d m : positive) :
  Zpos (Pos.iter xO m d) = Zpos m * 2 ^ Zpos d.
Proof.
  induction d as [|d IH] using Pos.peano_ind.
  - simpl. lia.
  - rewrite Pos.iter_succ, Pos2Z.inj_succ, Z.pow_succ_r by lia.
    rewrite Pos2Z.inj_xO, IH. lia.
Qed.

Lemma shl_align_value (m : positive) (e ez : Z) :
  ez <= e -> Zpos (fst (shl_align m e ez)) = Zpos m * 2 ^ (e - ez).
Proof.
  intros H. unfold shl_align. destruct (ez - e) as [|d|d] eqn:Hd.
  - replace (e - ez) with 0 by lia. simpl. lia.
  - lia.
  - replace (e - ez) with (Zpos d) by lia. simpl. apply iter_xO_value.
Qed.

Lemma binary_normalize_negative (z e : Z) :
  z < 0 -> has_sign true (binary_normalize prec emax z e false).
Proof.
  intros Hz. destruct z as [|p|p]; try lia.
  simpl. apply binary_round_sign.
Qed.

(** A float below 20, as [x < 20] compares it, minus 20: the difference has
    its sign bit set. *)
Lemma fsub_20_negative (x : float) :
  compare_int_float 20 x = Some Gt -> has_sign true (fsub x (of_Z 20)).
Proof.
  assert (E20 : of_Z 20 = S754_finite false 5629499534213120 (-48))
    by by_evaluation.
  rewrite E20. destruct x as [s|s| |s m e]; intros H.
  - reflexivity.
  - destruct s; [ reflexivity | discriminate H ].
  - discriminate H.
  - unfold compare_int_float in H. unfold fsub, SFsub.
    apply binary_normalize_negative.
    pose proof (Z.le_min_l e (-48)) as Hl.
    pose proof (Z.le_min_r e (-48)) as Hr.
    rewrite !shl_align_value by assumption.
    assert (Pm : 0 < Zpos m * 2 ^ (e - Z.min e (-48)))
      by (apply Z.mul_pos_pos; [ lia | apply Z.pow_pos_nonneg; lia ]).
    assert (P20 : 0 < 5629499534213120 * 2 ^ (-48 - Z.min e (-48)))
      by (apply Z.mul_pos_pos; [ lia | apply Z.pow_pos_nonneg; lia ]).
    destruct s; unfold cond_Zopp in H |- *; [ lia | ].
    apply (f_equal (fun o => match o with Some c => c | None => Eq end))
      in H.
    cbv beta iota in H.
    destruct (Z.le_gt_cases (-48) e) as [He|He].
    + rewrite Z.min_r in * by lia.
      replace (-48 - -48) with 0 by lia.
      replace (e - -48) with (e + 48) by lia.
      destruct (0 <=? e) eqn:H0.
      * apply Z.leb_le in H0. apply Z.compare_gt_iff in H.
        rewrite Z.pow_add_r by lia. change (2 ^ 48) with 281474976710656.
        change (2 ^ 0) with 1. nia.
      * apply Z.leb_gt in H0. apply Z.compare_gt_iff in H.
        assert (E : 2 ^ 48 = 2 ^ (e + 48) * 2 ^ (- e))
          by (rewrite <- Z.pow_add_r by lia; f_equal; lia).
        change (2 ^ 48) with 281474976710656 in E.
        assert (P : 0 < 2 ^ (e + 48)) by (apply Z.pow_pos_nonneg; lia).
        change (2 ^ 0) with 1. nia.
    + rewrite Z.min_l in * by lia.
      replace (e - e) with 0 by lia.
      replace (0 <=? e) with false in H by (symmetry; apply Z.leb_gt; lia).
      apply Z.compare_gt_iff in H.
      assert (E : 2 ^ (- e) = 281474976710656 * 2 ^ (-48 - e)).
      { change 281474976710656 with (2 ^ 48).
        rewrite <- Z.pow_add_r by lia. f_equal. lia. }
      change (2 ^ 0) with 1. nia.
Qed.

Lemma fmul_negative (x y : float) :
  has_sign true x -> positive_finite y -> has_sign true (fmul x y).
Proof.
  intros Hx (my & ey & ->).
  destruct x as [sx|sx| |sx mx ex]; simpl in Hx; try contradiction;
    subst sx; try reflexivity.
  exact (SFmul_sign prec emax (S754_finite true mx ex)
           (S754_finite false my ey) eq_refl eq_refl).
Qed.

Lemma fdiv_negative (x y : float) :
  has_sign true x -> positive_finite y -> has_sign true (fdiv x y).
Proof.
  intros Hx (my & ey & ->).
  assert (Hn : is_nan x = false)
    by (destruct x; try contradiction; reflexivity).
  pose proof (SFdiv_sign prec emax x false my ey Hn) as H.
  destruct x as [sx|sx| |sx mx ex]; simpl in Hx; try contradiction;
    subst sx; exact H.
Qed.

Lemma zero_above_negative (m : positive) (e : Z) :
  compare_int_float 0 (S754_finite true m e) = Some Gt.
Proof.
  unfold compare_int_float, cond_Zopp.
  destruct (0 <=? e) eqn:He; [ | reflexivity ].
  f_equal. apply Z.compare_gt_iff. apply Z.leb_le in He.
  assert (P : 0 < 2 ^ e) by (apply Z.pow_pos_nonneg; lia).
  nia.
Qed.

(** A float with its sign bit set is below zero, or is [-0.0]. *)
Lemma has_sign_true_below_zero (c : float) :
  has_sign true c -> ltb (Float c) (Int 0) = true \/ c = S754_zero true.
Proof.
  destruct c as [s|s| |s m e]; simpl; intros H; try contradiction; subst s.
  - right. reflexivity.
  - left. reflexivity.
  - left. unfold ltb, compare. rewrite zero_above_negative. reflexivity.
Qed.

Lemma thousand_positive : positive_finite (of_Z 1000).
Proof. eexists _, _. vm_compute. reflexivity. Qed.

(** The running calories when [18 * speed < 20]: negative, or [-0.0]. *)
Lemma slow_run_calories {libm : Libm} (a d w minutes : num) :
  isfinite w = true -> gt0 w = true ->
  mul d MIN_IN_HOUR = inr minutes ->
  isfinite minutes = true -> gt0 minutes = true ->
  speed_factor_below_20 (Running a d w) = true ->
  exists c,
    get_spent_calories (Running a d w) = inr (Float c)
    /\ (ltb (Float c) (Int 0) = true \/ c = S754_zero true).
Proof.
  intros Fw Pw Hmin Fm Pm Hslow.
  destruct (as_float_positive w Fw Pw) as (yw & Hyw & Pyw).
  destruct (as_float_positive minutes Fm Pm) as (ym & Hym & Pym).
  unfold speed_factor_below_20 in Hslow.
  destruct (get_mean_speed (Running a d w)) as [e|speed] eqn:Hs;
    [ discriminate Hslow | ].
  destruct (get_mean_speed_returns_float _ _ Hs) as [s ->].
  rewrite bind_inr in Hslow.
  assert (H18 : mul Running_SPEND_CALORIES_FACTOR (Float s)
                = inr (Float (fmul (of_Z 18) s))) by reflexivity.
  rewrite H18 in Hslow.
  set (fa := fmul (of_Z 18) s) in *.
  assert (Hcmp : compare_int_float 20 fa = Some Gt).
  { unfold ltb, compare, Running_SPEND_CALORIES_FACTOR_1 in Hslow.
    destruct (compare_int_float 20 fa) as [[]|];
      try discriminate Hslow; reflexivity. }
  pose proof (fsub_20_negative fa Hcmp) as Hb.
  set (fb := fsub fa (of_Z 20)) in *.
  pose proof (fmul_negative fb yw Hb Pyw) as Hc.
  pose proof (fdiv_negative _ _ Hc thousand_positive) as Hd.
  pose proof (fmul_negative _ _ Hd Pym) as Hr.
  exists (fmul (fdiv (fmul fb yw) (of_Z 1000)) ym).
  split; [ | apply has_sign_true_below_zero, Hr ].
  unfold get_spent_calories. rewrite Hs, bind_inr, H18, bind_inr.
  assert (H20 : sub (Float fa) Running_SPEND_CALORIES_FACTOR_1
                = inr (Float fb)) by reflexivity.
  rewrite H20, bind_inr.
  assert (Hw : mul (Float fb) w = inr (Float (fmul fb yw)))
    by exact (arith_float_l_value Z.mul fmul fb w yw Hyw).
  rewrite Hw, bind_inr.
  assert (Hkm : truediv (Float (fmul fb yw)) M_IN_KM
                = inr (Float (fdiv (fmul fb yw) (of_Z 1000))))
    by reflexivity.
  rewrite Hkm, bind_inr, Hmin, bind_inr.
  exact (arith_float_l_value Z.mul fmul _ minutes ym Hym).
Qed.

(** C10, as stated, fails: [18 * speed < 20] does not make the calories
    strictly negative.  1000 steps in one hour at a weight of [2^-1074] kg,
    the least positive float, are a valid reading of the annotated types
    with [18 * speed < 20]; the product with the weight underflows and the
    calories are [-0.0], which is not below zero.  This does not depend on
    the library: a run squares nothing. *)
Lemma C10_slow_run_without_negative_calories :
  ~ (exists libm : Libm,
       forall t, valid_reading t = true ->
                 (exists a d w, t = Running a d w) ->
                 speed_factor_below_20 t = true ->
                 calories_negative t = true).
Proof.
  intros (libm & H).
  specialize (H (Running (Int 1000) (Float (of_Z 1))
                   (Float (S754_finite false 1 (-1074))))).
  assert (Hneg : calories_negative
                   (Running (Int 1000) (Float (of_Z 1))
                      (Float (S754_finite false 1 (-1074)))) = false)
    by by_evaluation.
  rewrite H in Hneg; [ discriminate Hneg | by_evaluation | | by_evaluation ].
  eexists _, _, _. reflexivity.
Qed.

(** C10, amended: there are valid readings for which the running calories
    are strictly negative: 1000 steps in one hour at 75 kg cost
    -37.34999999999999 kcal.  Whenever [18 * speed < 20], for a positive
    finite weight and a duration whose product with 60 is positive and
    finite, the calories are negative or, when a product underflows,
    [-0.0] (as for 1000 steps in one hour at [2^-1074] kg): they are never
    positive.  At one hour and 75 kg every step count up to 1709
    (1.11085 km/h) has [18 * speed < 20] and negative calories, and 1710
    steps (1.1115 km/h) have neither.  The calories are therefore not
    guaranteed to be non-negative. *)
Theorem C10_running_calories_can_be_negative {libm : Libm} :
  (exists t, valid_reading t = true
             /\ (exists a d w, t = Running a d w)
             /\ speed_factor_below_20 t = true
             /\ returns_literal (get_spent_calories t) (-3734999999999999) 14
             /\ calories_negative t = true)
  /\ (forall a d w minutes,
        isfinite w = true -> gt0 w = true ->
        mul d MIN_IN_HOUR = inr minutes ->
        isfinite minutes = true -> gt0 minutes = true ->
        speed_factor_below_20 (Running a d w) = true ->
        exists c,
          get_spent_calories (Running a d w) = inr (Float c)
          /\ (ltb (Float c) (Int 0) = true \/ c = S754_zero true))
  /\ (valid_reading (Running (Int 1000) (Float (of_Z 1))
                       (Float (S754_finite false 1 (-1074)))) = true
      /\ speed_factor_below_20
           (Running (Int 1000) (Float (of_Z 1))
              (Float (S754_finite false 1 (-1074)))) = true
      /\ get_spent_calories
           (Running (Int 1000) (Float (of_Z 1))
              (Float (S754_finite false 1 (-1074))))
         = inr (Float (S754_zero true))
      /\ calories_negative
           (Running (Int 1000) (Float (of_Z 1))
              (Float (S754_finite false 1 (-1074)))) = false)
  /\ (forall steps, 0 <= steps <= 1709 ->
        valid_reading (one_hour_run steps) = true
        /\ speed_factor_below_20 (one_hour_run steps) = true
        /\ calories_negative (one_hour_run steps) = true)
  /\ valid_reading (one_hour_run 1710) = true
  /\ speed_factor_below_20 (one_hour_run 1710) = false
  /\ calories_positive (one_hour_run 1710) = true.
Proof.
  split; [ | split; [ | split; [ | split ] ] ].
  - exists (one_hour_run 1000).
    split; [ reflexivity | ].
    split; [ eexists _, _, _; reflexivity | ].
    repeat split; by_evaluation.
  - apply slow_run_calories.
  - repeat split; by_evaluation.
  - intros steps Hs.
    pose proof slow_runs_checked as H.
    rewrite forallb_forall in H.
    specialize (H (Z.to_nat steps)).
    rewrite Z2Nat.id in H by lia.
    assert (Hin : In (Z.to_nat steps) (seq 0 1710)).
    { apply in_seq. lia. }
    apply H in Hin. unfold slow_run in Hin.
    apply andb_prop in Hin. destruct Hin as [Hin H3].
    apply andb_prop in Hin. destruct Hin as [H1 H2].
    repeat split; assumption.
  - repeat split; by_evaluation.
Qed.
